(** * Air-crash dashboard: the loading and query pipeline of [app.py]

    The script reads a CSV table of accident records with pandas, rebuilds a
    calendar date from the [Year], [Month] and [Day] columns, and then
    renders metrics and charts from the table and from a filtered copy of it.

    The development embeds the script's data path:
    - a [DataFrame] is a header (the column names) and a list of rows;
    - [load_data] is the body of the function of the same name, one
      definition per statement;
    - the queries that feed the widgets ([filtered_df], the four metrics,
      the preview, and the four chart inputs) are gathered in [render].

    pandas and seaborn calls are modelled as pandas 2.x carries them out:
    [Series.map] with a dict sends a value that is not a key to NaN;
    [to_datetime(..., errors='coerce')] on the three columns adds
    [year * 10000 + month * 100 + day] and reads the digits of the sum with
    the format [%Y%m%d], giving NaT when they are not a date;
    [groupby(..).size()] sorts its keys and skips missing keys;
    [value_counts] counts in order of first appearance, skips missing values
    and sorts by decreasing count with a sort that is not stable, so that
    the order of equal counts is not fixed; [sum] skips missing values and
    adds in the type of the column, int64 or float64; [regplot] drops
    observations with a missing coordinate.  Whole-number columns are int64
    columns, whose arithmetic wraps around. *)

From stdpp Require Import gmap strings list fin_maps sorting.
From Stdlib Require Import ZArith Lia Ascii.

Local Open Scope Z_scope.

(** ** Values and tables *)

(** A [datetime64] value at midnight: the script never uses a time of day. *)
Record Timestamp := mkTimestamp { ts_year : Z; ts_month : Z; ts_day : Z }.

(** The content of the [Month] column changes kind while loading (month
    names, then numbers), so its cells are dynamically typed. *)
Inductive cell :=
| NaN
| Num (z : Z)
| Str (s : string).

(** One line of the table.  [read_csv] infers numeric columns for [Year],
    [Day], [Fatalities (air)] and [Ground] and text columns for the others;
    [None] is a missing value (NaN, or NaT for [Date]). *)
Record Row := mkRow {
  Year : option Z;
  Month : cell;
  Day : option Z;
  Date : option Timestamp;
  Country_Region : option string;
  Operator : option string;
  Aircraft_Manufacturer : option string;
  Fatalities_air : option Z;
  Ground : option Z
}.

(** The header lists the columns that exist; a field of a row whose column
    is not in the header is never read by [load_data]. *)
Record DataFrame := mkDataFrame {
  columns : list string;
  rows : list Row
}.

#[global] Instance Timestamp_eq_dec : EqDecision Timestamp.
Proof. solve_decision. Defined.
#[global] Instance cell_eq_dec : EqDecision cell.
Proof. solve_decision. Defined.
#[global] Instance Row_eq_dec : EqDecision Row.
Proof. solve_decision. Defined.
#[global] Instance DataFrame_eq_dec : EqDecision DataFrame.
Proof. solve_decision. Defined.

(** A Python call returns a value or raises. *)
Inductive outcome (A : Type) :=
| Returned (a : A)
| Raised (exn : string).
Arguments Returned {A} a.
Arguments Raised {A} exn.

(** Column assignment [df[name] = ...]: the column is created at the end of
    the header when it does not exist yet. *)
Definition has_column (name : string) (df : DataFrame) : bool :=
  existsb (String.eqb name) (columns df).

Definition assign (name : string) (upd : Row -> Row) (df : DataFrame) : DataFrame :=
  {| columns := if has_column name df then columns df else columns df ++ [name];
     rows := upd <$> rows df |}.

Definition set_Year (v : option Z) (r : Row) : Row :=
  mkRow v (Month r) (Day r) (Date r) (Country_Region r) (Operator r)
        (Aircraft_Manufacturer r) (Fatalities_air r) (Ground r).
Definition set_Month (v : cell) (r : Row) : Row :=
  mkRow (Year r) v (Day r) (Date r) (Country_Region r) (Operator r)
        (Aircraft_Manufacturer r) (Fatalities_air r) (Ground r).
Definition set_Day (v : option Z) (r : Row) : Row :=
  mkRow (Year r) (Month r) v (Date r) (Country_Region r) (Operator r)
        (Aircraft_Manufacturer r) (Fatalities_air r) (Ground r).
Definition set_Date (v : option Timestamp) (r : Row) : Row :=
  mkRow (Year r) (Month r) (Day r) v (Country_Region r) (Operator r)
        (Aircraft_Manufacturer r) (Fatalities_air r) (Ground r).

(** ** Calendar dates *)

Definition is_leap (y : Z) : bool :=
  ((y mod 4 =? 0) && negb (y mod 100 =? 0)) || (y mod 400 =? 0).

Definition days_in_month (y m : Z) : Z :=
  if m =? 2 then (if is_leap y then 29 else 28)
  else if (m =? 4) || (m =? 6) || (m =? 9) || (m =? 11) then 30
  else 31.

Definition valid_date (y m d : Z) : bool :=
  (1 <=? m) && (m <=? 12) && (1 <=? d) && (d <=? days_in_month y m).

(** [Timestamp.min] is 1677-09-21 00:12:43 and [Timestamp.max] is
    2262-04-11 23:47:16: the midnights that fit go from 1677-09-22 to
    2262-04-11.  Dates are compared through their [yyyymmdd] number. *)
Definition yyyymmdd (y m d : Z) : Z := y * 10000 + m * 100 + d.

Definition in_bounds (y m d : Z) : bool :=
  (16770922 <=? yyyymmdd y m d) && (yyyymmdd y m d <=? 22620411).

(** ** [load_data] *)

(** [month_map], the dict literal of the source. *)
Definition month_map : gmap string Z :=
  list_to_map
    [("January", 1); ("February", 2); ("March", 3); ("April", 4);
     ("May", 5); ("June", 6); ("July", 7); ("August", 8);
     ("September", 9); ("October", 10); ("November", 11); ("December", 12)].

(** [Series.map(d)] with a dict [d]: a value that is a key of [d] becomes
    its image, every other value (a number, a missing value, a string that
    is not a key) becomes NaN.  The keys of [month_map] are strings, so a
    number is never a key. *)
Definition map_dict (d : gmap string Z) (c : cell) : cell :=
  match c with
  | Str s => match d !! s with Some z => Num z | None => NaN end
  | Num _ => NaN
  | NaN => NaN
  end.

(** [Series.fillna(v)]. *)
Definition fillna (v : Z) (o : option Z) : option Z :=
  match o with
  | Some z => Some z
  | None => Some v
  end.

(** [to_numeric(errors='coerce')] on one cell: numbers are kept, integer
    literals are read, anything else is NaN. *)
Definition digit_of (a : Ascii.ascii) : option Z :=
  let n := Z.of_N (Ascii.N_of_ascii a) in
  if (48 <=? n) && (n <=? 57) then Some (n - 48) else None.

Fixpoint read_digits (acc : Z) (s : string) : option Z :=
  match s with
  | EmptyString => Some acc
  | String a s' =>
      match digit_of a with
      | Some k => read_digits (10 * acc + k) s'
      | None => None
      end
  end.

Definition read_int (s : string) : option Z :=
  match s with
  | EmptyString => None
  | String "-"%char (String a s') => Z.opp <$> read_digits 0 (String a s')
  | _ => read_digits 0 s
  end.

Definition to_numeric (c : cell) : option Z :=
  match c with
  | NaN => None
  | Num z => Some z
  | Str s => read_int s
  end.

(** int64 arithmetic: the result is brought back between -2^63 and
    2^63 - 1. *)
Definition wrap64 (z : Z) : Z :=
  (z + 9223372036854775808) mod 18446744073709551616 - 9223372036854775808.

(** The digits of a whole number read with the format [%Y%m%d], as the
    regular expression of [strptime] reads them: four digits for the year,
    then a month of two digits (01 to 12) or else of one digit (1 to 9),
    then a day of two digits (01 to 31) or else of one digit (1 to 9); the
    two-digit month is tried first, and all the digits must be used up.  A
    negative number, or one of fewer than six or more than eight digits, is
    not read. *)
Definition month_2digit (ab : Z) : bool := (1 <=? ab) && (ab <=? 12).

Definition day_2digit (cd : Z) : bool := (1 <=? cd) && (cd <=? 31).

Definition strptime_Ymd (v : Z) : option (Z * Z * Z) :=
  if v <? 100000 then None
  else if v <? 1000000 then
    (* yyyyab: month a, day b *)
    let a := (v / 10) mod 10 in
    let b := v mod 10 in
    if negb (a =? 0) && negb (b =? 0) then Some (v / 100, a, b) else None
  else if v <? 10000000 then
    (* yyyyabc: month ab and day c, or else month a and day bc *)
    let a := (v / 100) mod 10 in
    let b := (v / 10) mod 10 in
    let c := v mod 10 in
    let ab := (v / 10) mod 100 in
    let bc := v mod 100 in
    if month_2digit ab then
      if negb (c =? 0) then Some (v / 1000, ab, c)
      else if (a =? 1) && negb (b =? 0) then Some (v / 1000, 1, bc)
      else None
    else if negb (a =? 0) && day_2digit bc then Some (v / 1000, a, bc)
    else None
  else if v <? 100000000 then
    (* yyyyabcd: month ab, day cd *)
    let ab := (v / 100) mod 100 in
    let cd := v mod 100 in
    if month_2digit ab && day_2digit cd then Some (v / 10000, ab, cd) else None
  else None.

(** [pd.to_datetime(df[['Year', 'Month', 'Day']], errors='coerce')] on one
    row.  pandas coerces the three columns to numbers, adds
    [year * 10000 + month * 100 + day] and parses the sum with the format
    [%Y%m%d]; a missing component, digits that are not read, an impossible
    calendar date or a date outside the range of [Timestamp] give NaT.  The
    date is the one the digits spell, which is the triple itself only when
    the year has four digits and the day at most two. *)
Definition to_datetime (year : option Z) (month : cell) (day : option Z)
  : option Timestamp :=
  match year, to_numeric month, day with
  | Some y, Some m, Some d =>
      match strptime_Ymd (wrap64 (yyyymmdd y m d)) with
      | Some (yy, mm, dd) =>
          if valid_date yy mm dd && in_bounds yy mm dd
          then Some (mkTimestamp yy mm dd) else None
      | None => None
      end
  | _, _, _ => None
  end.

(** [df.dropna(subset=['Date'])]. *)
Definition dropna_Date (df : DataFrame) : DataFrame :=
  {| columns := columns df;
     rows := List.filter (fun r => bool_decide (is_Some (Date r))) (rows df) |}.

Definition required_columns : list string := ["Year"; "Month"; "Day"].

Definition missing_message : string :=
  "Year, Month, or Day column is missing from the dataset.".

(** [load_data], applied to the table that [read_csv] returned.  The first
    component is what [st.error] has shown.  [df['Day'].fillna(1,
    inplace=True)] updates the column of [df] itself, as it does in pandas
    2.x without copy-on-write. *)
Definition has_required (df : DataFrame) : bool :=
  forallb (fun col => has_column col df) required_columns.

Definition load_data (df : DataFrame) : list string * outcome DataFrame :=
  if has_required df then
    let df := assign "Month" (fun r => set_Month (map_dict month_map (Month r)) r) df in
    let df := assign "Day" (fun r => set_Day (fillna 1 (Day r)) r) df in
    let df := assign "Date" (fun r => set_Date (to_datetime (Year r) (Month r) (Day r)) r) df in
    let df := dropna_Date df in
    let df := assign "Year" (fun r => set_Year (ts_year <$> Date r) r) df in
    let df := assign "Month" (fun r => set_Month (from_option Num NaN (ts_month <$> Date r)) r) df in
    ([], Returned df)
  else
    ([missing_message], Returned df).

(** ** The sidebar selection and the filtered table *)

(** The values of the three sidebar widgets: the bounds of the year slider,
    and the country and airline select boxes, whose first option is
    ["All"]. *)
Record Selection := mkSelection {
  selected_year : Z * Z;
  selected_country : string;
  selected_airline : string
}.

(** Element-wise comparisons of a column with a scalar; a missing value
    compares false. *)
Definition series_ge (v : option Z) (k : Z) : bool :=
  match v with Some z => k <=? z | None => false end.

Definition series_le (v : option Z) (k : Z) : bool :=
  match v with Some z => z <=? k | None => false end.

Definition series_eq (v : option string) (k : string) : bool :=
  match v with Some s => String.eqb s k | None => false end.

(** Boolean indexing [df[mask]]. *)
Definition select (mask : Row -> bool) (df : DataFrame) : DataFrame :=
  {| columns := columns df; rows := List.filter mask (rows df) |}.

Definition filtered_df (df : DataFrame) (sel : Selection) : DataFrame :=
  let filtered :=
    select (fun r => series_ge (Year r) (fst (selected_year sel))
                     && series_le (Year r) (snd (selected_year sel))) df in
  let filtered :=
    if negb (String.eqb (selected_country sel) "All")
    then select (fun r => series_eq (Country_Region r) (selected_country sel)) filtered
    else filtered in
  let filtered :=
    if negb (String.eqb (selected_airline sel) "All")
    then select (fun r => series_eq (Operator r) (selected_airline sel)) filtered
    else filtered in
  filtered.

(** ** Aggregations *)

(** A whole-number column is an int64 column when none of its values is
    missing, a float64 column otherwise (the type [read_csv] gives it; a
    table whose missing values were all dropped at load is read here as
    int64). *)
Definition is_int64 (s : list (option Z)) : bool :=
  forallb (fun v => match v with Some _ => true | None => false end) s.

(** A whole number rounded to the nearest float64 (53 significant bits,
    ties to even); whole numbers below 2^53 in magnitude are kept. *)
Definition round_float64 (z : Z) : Z :=
  let a := Z.abs z in
  if a <? 9007199254740992 then z
  else
    let e := Z.log2 a - 52 in
    let q := Z.shiftr a e in
    let r := a - Z.shiftl q e in
    let half := Z.shiftl 1 (e - 1) in
    let q' := if (half <? r) || ((r =? half) && Z.odd q) then q + 1 else q in
    Z.sgn z * Z.shiftl q' e.

(** [Series.sum()]: missing values are skipped, and the values are added in
    the type of the column: in an int64 column the total wraps around, in a
    float64 column every addition rounds (the additions are taken from left
    to right here; on a long column numpy groups them otherwise, with the
    same total whenever no addition rounds). *)
Definition series_sum (int64 : bool) (s : list (option Z)) : Z :=
  if int64
  then wrap64 (foldr (fun v acc => from_option id 0 v + acc) 0 s)
  else foldl (fun acc v => match v with
                           | Some z => round_float64 (acc + z)
                           | None => acc
                           end) 0 s.

(** [Series.nunique()]: the number of distinct values, missing ones apart. *)
Definition nunique (s : list (option string)) : nat :=
  length (remove_dups (omap id s)).

(** [groupby(key).size()]: one entry per key present, in increasing key
    order, with the number of rows of that key; rows with a missing key are
    left out. *)
Fixpoint bump (k : Z) (l : list (Z * nat)) : list (Z * nat) :=
  match l with
  | [] => [(k, 1%nat)]
  | (k', c) :: l' =>
      if k <? k' then (k, 1%nat) :: (k', c) :: l'
      else if k =? k' then (k', S c) :: l'
      else (k', c) :: bump k l'
  end.

Definition groupby_size (keys : list (option Z)) : list (Z * nat) :=
  foldr (fun v acc => match v with Some k => bump k acc | None => acc end) [] keys.

(** The numeric key of a [Month] cell; after a successful [load_data] every
    cell of the column is a number. *)
Definition month_key (c : cell) : option Z :=
  match c with Num z => Some z | _ => None end.

(** [Series.value_counts()]: the counting pass records the values in order
    of first appearance, skipping missing ones; the result is then sorted by
    decreasing count with [sort_values], whose default sort (quicksort) is
    not stable: the order in which pandas leaves equal counts is not fixed.
    [value_counts_result], further down, is what every run guarantees.
    [sort_desc] is the run of numpy's insertion sort, the one its quicksort
    makes on a short table: [sort_values(ascending=False)] sorts the counts
    in increasing order and reverses the outcome, which leaves equal counts
    in the reverse of the order of the counting pass. *)
Fixpoint tally (k : string) (l : list (string * nat)) : list (string * nat) :=
  match l with
  | [] => [(k, 1%nat)]
  | (k', c) :: l' =>
      if String.eqb k k' then (k', S c) :: l' else (k', c) :: tally k l'
  end.

Definition count_values (s : list (option string)) : list (string * nat) :=
  foldl (fun acc v => match v with Some k => tally k acc | None => acc end) [] s.

Fixpoint insert_desc (p : string * nat) (l : list (string * nat))
  : list (string * nat) :=
  match l with
  | [] => [p]
  | q :: l' => if (snd p <=? snd q)%nat then q :: insert_desc p l' else p :: q :: l'
  end.

Definition sort_desc (l : list (string * nat)) : list (string * nat) :=
  foldr insert_desc [] l.

Definition value_counts (s : list (option string)) : list (string * nat) :=
  sort_desc (count_values s).

(** [Series.head(n)]. *)
Definition head {A} (n : nat) (l : list A) : list A := take n l.

(** The points [regplot] draws and fits ([dropna=True] is its default): the
    observations with both coordinates present. *)
Definition regplot_points (x y : list (option Z)) : list (Z * Z) :=
  omap (fun xy => match xy with
                  | (Some a, Some g) => Some (a, g)
                  | _ => None
                  end) (zip x y).

(** ** One run of the script *)

(** The columns of the preview table, [filtered_df[[...]]]; selecting a
    column that the header does not have raises [KeyError].  [Date] is the
    one column of the script's own making: the table has it only when
    [load_data] found its three columns. *)
Definition preview_columns : list string :=
  ["Date"; "Country/Region"; "Operator"; "Aircraft Manufacturer";
   "Fatalities (air)"].

(** What one run hands to the widgets: the four metric cards, the preview
    table, and the data of the four charts; each field is the value of its
    expression. *)
Record Dashboard := mkDashboard {
  total_crashes : nat;
  total_fatalities : Z;
  countries_affected : nat;
  airlines_involved : nat;
  preview : outcome (list (option Timestamp * option string * option string
                           * option string * option Z));
  yearly_trend : list (Z * nat);
  top_countries : list (string * nat);
  fatalities_correlation : list (Z * Z);
  monthly : list (Z * nat)
}.

Definition render (df : DataFrame) (sel : Selection) : Dashboard :=
  let filtered_df := filtered_df df sel in
  {| total_crashes := length (rows filtered_df);
     total_fatalities :=
       series_sum (is_int64 (Fatalities_air <$> rows df))
                  (Fatalities_air <$> rows filtered_df);
     countries_affected := nunique (Country_Region <$> rows filtered_df);
     airlines_involved := nunique (Operator <$> rows filtered_df);
     preview :=
       if forallb (fun col => has_column col filtered_df) preview_columns
       then Returned ((fun r => (Date r, Country_Region r, Operator r,
                                 Aircraft_Manufacturer r, Fatalities_air r))
                        <$> rows filtered_df)
       else Raised "KeyError: not in index";
     yearly_trend := groupby_size (Year <$> rows df);
     top_countries := head 10 (value_counts (Country_Region <$> rows df));
     fatalities_correlation :=
       regplot_points (Fatalities_air <$> rows df) (Ground <$> rows df);
     monthly := groupby_size ((fun r => month_key (Month r)) <$> rows df) |}.

(** ** Reading the result of [load_data] *)

(** The rows of the table that [load_data] hands back. *)
Definition loaded_rows (df : DataFrame) : list Row :=
  match snd (load_data df) with
  | Returned out => rows out
  | Raised _ => []
  end.

(** What the statements of the normalising branch do to a single row: the
    date assembled from the raw row, and the row kept for that date. *)
Definition raw_date (r : Row) : option Timestamp :=
  to_datetime (Year r) (map_dict month_map (Month r)) (fillna 1 (Day r)).

Definition with_date (r : Row) (d : Timestamp) : Row :=
  {| Year := Some (ts_year d);
     Month := Num (ts_month d);
     Day := fillna 1 (Day r);
     Date := Some d;
     Country_Region := Country_Region r;
     Operator := Operator r;
     Aircraft_Manufacturer := Aircraft_Manufacturer r;
     Fatalities_air := Fatalities_air r;
     Ground := Ground r |}.

Definition normalize (r : Row) : option Row := with_date r <$> raw_date r.

(** A raw row has a calendar date when its year is present, its month is
    one of the names of [month_map], and these with its day (1 when the day
    is missing) are a date of the calendar. *)
Definition forms_valid_date (r : Row) : Prop :=
  exists y name m d,
    Year r = Some y /\ Month r = Str name /\ month_map !! name = Some m /\
    fillna 1 (Day r) = Some d /\ valid_date y m d = true.

(** ** The filter predicate, as a property of one record *)

Definition year_in_range (lo hi : Z) (r : Row) : Prop :=
  match Year r with
  | Some y => lo <= y <= hi
  | None => False
  end.

Definition matches (sel : Selection) (r : Row) : Prop :=
  year_in_range (fst (selected_year sel)) (snd (selected_year sel)) r /\
  (selected_country sel <> "All" -> Country_Region r = Some (selected_country sel)) /\
  (selected_airline sel <> "All" -> Operator r = Some (selected_airline sel)).

#[global] Instance year_in_range_dec lo hi r : Decision (year_in_range lo hi r).
Proof. unfold year_in_range. destruct (Year r); apply _. Defined.

#[global] Instance matches_dec sel r : Decision (matches sel r).
Proof. unfold matches. apply _. Defined.

(** ** Sample tables *)

Definition all_columns : list string :=
  ["Year"; "Month"; "Day"; "Country/Region"; "Operator";
   "Aircraft Manufacturer"; "Fatalities (air)"; "Ground"].

(** A one-line table whose header has no [Day] column. *)
Definition row_without_Day : Row :=
  mkRow (Some 1972) (Str "October") None None (Some "Uruguay")
        (Some "Fuerza Aerea Uruguaya") (Some "Fairchild") (Some 29) (Some 0).

Definition table_without_Day : DataFrame :=
  {| columns := ["Year"; "Month"; "Country/Region"; "Operator";
                 "Aircraft Manufacturer"; "Fatalities (air)"; "Ground"];
     rows := [row_without_Day] |}.

(** A table whose months are already numbers: the integer 10 in the first
    line, the text "10" in the second. *)
Definition table_numeric_month : DataFrame :=
  {| columns := all_columns;
     rows := [mkRow (Some 1972) (Num 10) (Some 13) None (Some "Uruguay")
                    (Some "Fuerza Aerea Uruguaya") (Some "Fairchild")
                    (Some 29) (Some 0);
              mkRow (Some 1977) (Str "10") (Some 20) None (Some "USA")
                    (Some "L & J Company") (Some "Convair")
                    (Some 6) (Some 0)] |}.

(** A line with no day, and a line dated February 30. *)
Definition row_no_day : Row :=
  mkRow (Some 1958) (Str "February") None None (Some "Germany")
        (Some "British European Airways") (Some "Airspeed") (Some 23) (Some 0).

Definition row_feb_30 : Row :=
  mkRow (Some 1960) (Str "February") (Some 30) None (Some "Brazil")
        (Some "Real Transportes Aereos") (Some "Douglas") (Some 26) None.

Definition table_days : DataFrame :=
  {| columns := all_columns; rows := [row_no_day; row_feb_30] |}.

(** Ten records, two of them without a ground count. *)
Definition fatalities_row (air ground : option Z) : Row :=
  mkRow (Some 1999) (Num 5) (Some 1) (Some (mkTimestamp 1999 5 1))
        (Some "Peru") (Some "Private") (Some "Cessna") air ground.

Definition ten_records : DataFrame :=
  {| columns := all_columns ++ ["Date"];
     rows := [fatalities_row (Some 4) (Some 0); fatalities_row (Some 12) None;
              fatalities_row (Some 1) (Some 2); fatalities_row (Some 0) (Some 0);
              fatalities_row (Some 7) (Some 1); fatalities_row (Some 3) None;
              fatalities_row (Some 90) (Some 5); fatalities_row (Some 2) (Some 0);
              fatalities_row (Some 15) (Some 0); fatalities_row (Some 6) (Some 3)] |}.

(** Replacing the ground counts of a table. *)
Definition set_Ground (v : option Z) (r : Row) : Row :=
  mkRow (Year r) (Month r) (Day r) (Date r) (Country_Region r) (Operator r)
        (Aircraft_Manufacturer r) (Fatalities_air r) v.

(** Two records, forty years apart. *)
Definition two_years : DataFrame :=
  {| columns := all_columns ++ ["Date"];
     rows := [mkRow (Some 1950) (Num 3) (Some 1) (Some (mkTimestamp 1950 3 1))
                    (Some "Peru") (Some "Faucett") (Some "Douglas")
                    (Some 10) (Some 0);
              mkRow (Some 1990) (Num 7) (Some 9) (Some (mkTimestamp 1990 7 9))
                    (Some "Chile") (Some "Ladeco") (Some "Boeing")
                    (Some 5) (Some 2)] |}.

(** The default sidebar selection on a Dataset that ends in 2024. *)
Definition default_selection : Selection := mkSelection (1940, 2024) "All" "All".

(** An empty Dataset. *)
Definition no_records : DataFrame :=
  {| columns := all_columns ++ ["Date"]; rows := [] |}.

(** ** Reading a table of counts *)

(** The count recorded for key [k] in a table of (key, count) pairs, 0 when
    the key has no entry. *)
Fixpoint entry (k : Z) (l : list (Z * nat)) : nat :=
  match l with
  | [] => 0%nat
  | (k', c) :: l' => if k =? k' then c else entry k l'
  end.

(** The number of records of month [k]. *)
Definition count_month (k : Z) (l : list Row) : nat :=
  length (filter (fun r => Month r = Num k) l).

(** ** Order of appearance *)

(** [x] stands before [y] in the list [l]. *)
Definition before {A} (x y : A) (l : list A) : Prop :=
  exists l1 l2 l3, l = l1 ++ x :: l2 ++ y :: l3.

(** In the column [s], the value [k1] has been met before [k2] is met for
    the first time. *)
Definition first_seen_before (k1 k2 : string) (s : list (option string)) : Prop :=
  exists l1 l2, s = l1 ++ Some k2 :: l2 /\ (Some k2 ∉ l1) /\ (Some k1 ∈ l1).

(** The number of cells of the column [s] that hold [k]. *)
Definition occurrences (k : string) (s : list (option string)) : nat :=
  length (filter (fun v => v = Some k) s).

(** The count recorded for the value [k] by the counting pass, 0 when the
    value has no entry. *)
Fixpoint tallied (k : string) (l : list (string * nat)) : nat :=
  match l with
  | [] => 0%nat
  | (k', c) :: l' => if String.eqb k k' then c else tallied k l'
  end.

(** A column of countries in which A and B occur five times, C three times
    and D once, with one missing value; A is met before B. *)
Definition countries_ABCD : list (option string) :=
  [Some "D"; Some "A"; Some "B"; Some "A"; Some "B"; Some "C"; None;
   Some "A"; Some "B"; Some "C"; Some "A"; Some "B"; Some "C"; Some "A";
   Some "B"].

(** ** The sidebar widgets *)

(** [Series.max()]: the greatest value of the column, missing values
    apart; NaN when the column holds no value. *)
Definition series_max (s : list (option Z)) : option Z :=
  foldr (fun v acc => match v, acc with
                      | Some z, Some m => Some (Z.max z m)
                      | Some z, None => Some z
                      | None, _ => acc
                      end) None s.

(** [int(x)] of a number that may be NaN. *)
Definition int_of (v : option Z) : outcome Z :=
  match v with
  | Some z => Returned z
  | None => Raised "ValueError: cannot convert float NaN to integer"
  end.

(** The initial value of the year slider, [(1940, int(df['Year'].max()))];
    reading a column that the header does not have raises [KeyError]. *)
Definition default_year_range (df : DataFrame) : outcome (Z * Z) :=
  if has_column "Year" df then
    match int_of (series_max (Year <$> rows df)) with
    | Returned hi => Returned (1940, hi)
    | Raised exn => Raised exn
    end
  else Raised "KeyError: 'Year'".

(** [Series.dropna().unique().tolist()]: the values present, each once, in
    order of first appearance. *)
Definition unique (l : list string) : list string :=
  foldl (fun acc x => if decide (x ∈ acc) then acc else acc ++ [x]) [] l.

(** [sorted] on strings: increasing in the order of their characters'
    codes. *)
Definition sorted (l : list string) : list string := merge_sort String.le l.

(** The options of a select box, [["All"] + sorted(column.dropna().unique()
    .tolist())]. *)
Definition select_options (s : list (option string)) : list string :=
  "All" :: sorted (unique (omap id s)).

Definition country_options (df : DataFrame) : outcome (list string) :=
  if has_column "Country/Region" df
  then Returned (select_options (Country_Region <$> rows df))
  else Raised "KeyError: 'Country/Region'".

Definition airline_options (df : DataFrame) : outcome (list string) :=
  if has_column "Operator" df
  then Returned (select_options (Operator <$> rows df))
  else Raised "KeyError: 'Operator'".

(** ** Reading the loaded table *)

(** The table that [load_data] hands back. *)
Definition loaded_table (df : DataFrame) : DataFrame :=
  match snd (load_data df) with
  | Returned out => out
  | Raised _ => df
  end.

(** [out] carries the line [raw] over: the line has a year and one of the
    twelve month names, the day of [out] is the line's day, or 1 when the
    line had none, and the other columns are untouched. *)
Definition carried_over (raw out : Row) : Prop :=
  is_Some (Year raw) /\
  (exists name m, Month raw = Str name /\ month_map !! name = Some m) /\
  Day out = fillna 1 (Day raw) /\
  Country_Region out = Country_Region raw /\
  Operator out = Operator raw /\
  Aircraft_Manufacturer out = Aircraft_Manufacturer raw /\
  Fatalities_air out = Fatalities_air raw /\
  Ground out = Ground raw.

(** The number of records of year [y]. *)
Definition count_year (y : Z) (l : list Row) : nat :=
  length (filter (fun r => Year r = Some y) l).

(** A table with the eight columns and three raw lines: a complete one, one
    without a day, one dated February 30. *)
Definition row_complete : Row :=
  mkRow (Some 1977) (Str "March") (Some 27) None (Some "Spain")
        (Some "KLM") (Some "Boeing") (Some 248) (Some 0).

Definition table_three : DataFrame :=
  {| columns := all_columns; rows := [row_complete; row_no_day; row_feb_30] |}.

(** The record is of year [lo] or later. *)
Definition year_from (lo : Z) (r : Row) : Prop :=
  match Year r with
  | Some y => lo <= y
  | None => False
  end.

#[global] Instance year_from_dec lo r : Decision (year_from lo r).
Proof. unfold year_from. destruct (Year r); apply _. Defined.

(** A line whose day is 101: January 101, 1960 is not a day of the
    calendar. *)
Definition row_day_101 : Row :=
  mkRow (Some 1960) (Str "January") (Some 101) None (Some "USA")
        (Some "Capital Airlines") (Some "Vickers") (Some 50) (Some 0).

Definition table_day_101 : DataFrame :=
  {| columns := all_columns; rows := [row_day_101] |}.

(** ** Sums in the integers *)

(** The sum of the values of a column as whole numbers, a missing value
    counting for 0, and the sum of their magnitudes. *)
Definition exact_sum (s : list (option Z)) : Z :=
  foldr (fun v acc => from_option id 0 v + acc) 0 s.

Definition sum_abs (s : list (option Z)) : Z :=
  foldr (fun v acc => Z.abs (from_option id 0 v) + acc) 0 s.

(** Two records of 1999 whose air-fatality counts are the greatest int64
    number, 2^63 - 1. *)
Definition two_huge_counts : DataFrame :=
  {| columns := all_columns ++ ["Date"];
     rows := [fatalities_row (Some 9223372036854775807) (Some 0);
              fatalities_row (Some 9223372036854775807) (Some 0)] |}.

(** ** What a sort by decreasing count guarantees *)

(** [out] holds the pairs of [l], by decreasing count: what
    [sort_values(ascending=False)] guarantees of its result, the order of
    equal counts being left open. *)
Definition sorted_by_count (l out : list (string * nat)) : Prop :=
  out ≡ₚ l /\ StronglySorted (fun p q => (q.2 <= p.2)%nat) out.

(** [out] is a possible result of [value_counts()] on the column [s]. *)
Definition value_counts_result (s : list (option string))
    (out : list (string * nat)) : Prop :=
  sorted_by_count (count_values s) out.

(** A column of countries in which C occurs three times, then D once, then
    A five times, then B five times. *)
Definition countries_CDAB : list (option string) :=
  [Some "C"; Some "C"; Some "C"; Some "D"; Some "A"; Some "A"; Some "A";
   Some "A"; Some "A"; Some "B"; Some "B"; Some "B"; Some "B"; Some "B"].

(** * Properties of [load_data] *)

Lemma loaded_rows_normalize (df : DataFrame) :
  has_required df = true -> loaded_rows df = omap normalize (rows df).
Proof.
  intros H. unfold loaded_rows, load_data. rewrite H. cbn [snd].
  unfold assign, dropna_Date. cbn [rows].
  induction (rows df) as [|r l IH]; [reflexivity|].
  cbn [fmap list_fmap omap list_omap List.filter].
  unfold normalize at 1, raw_date at 1.
  cbn [Date Year Month Day set_Date set_Day set_Month set_Year].
  destruct (to_datetime _ _ _) as [d|]; cbn.
  - f_equal. apply IH.
  - apply IH.
Qed.

Lemma loaded_rows_missing (df : DataFrame) :
  has_required df = false -> loaded_rows df = rows df.
Proof.
  intros H. unfold loaded_rows, load_data. now rewrite H.
Qed.

Lemma month_map_range (name : string) (m : Z) :
  month_map !! name = Some m -> 1 <= m <= 12.
Proof.
  unfold month_map. intros H.
  apply elem_of_list_to_map_2 in H.
  repeat (apply elem_of_cons in H as [H|H]; [injection H as _ ->; lia|]).
  now apply elem_of_nil in H.
Qed.

Lemma to_numeric_map_dict (c : cell) :
  to_numeric (map_dict month_map c)
  = match c with Str s => month_map !! s | _ => None end.
Proof.
  destruct c as [|z|s]; try reflexivity.
  unfold map_dict. now destruct (month_map !! s).
Qed.

Lemma wrap64_small (z : Z) :
  -9223372036854775808 <= z < 9223372036854775808 -> wrap64 z = z.
Proof.
  intros H. unfold wrap64. rewrite Z.mod_small by lia. lia.
Qed.

(** A four-digit year, a month and a day of at most two digits are read
    back as they are, provided the day is one of 01 to 31. *)
Lemma strptime_Ymd_plain (y m d : Z) :
  1000 <= y <= 9999 -> 1 <= m <= 12 -> 0 <= d <= 99 ->
  strptime_Ymd (yyyymmdd y m d)
  = if day_2digit d then Some (y, m, d) else None.
Proof.
  intros Hy Hm Hd. unfold strptime_Ymd, yyyymmdd.
  set (v := y * 10000 + m * 100 + d).
  assert (E1 : v / 10000 = y)
    by (symmetry; apply (Z.div_unique v 10000 y (m * 100 + d)); lia).
  assert (E2 : (v / 100) mod 100 = m).
  { assert (E : v / 100 = y * 100 + m)
      by (symmetry; apply (Z.div_unique v 100 (y * 100 + m) d); lia).
    rewrite E. symmetry. apply (Z.mod_unique _ 100 y m); lia. }
  assert (E3 : v mod 100 = d)
    by (symmetry; apply (Z.mod_unique v 100 (y * 100 + m) d); lia).
  destruct (Z.ltb_spec v 100000); [lia|].
  destruct (Z.ltb_spec v 1000000); [lia|].
  destruct (Z.ltb_spec v 10000000); [lia|].
  destruct (Z.ltb_spec v 100000000); [|lia].
  rewrite E1, E2, E3. unfold month_2digit.
  destruct (Z.leb_spec 1 m); [|lia]. destruct (Z.leb_spec m 12); [|lia].
  reflexivity.
Qed.

(** What is read spells the number, in one of four layouts. *)
Lemma strptime_Ymd_shape (v yy mm dd : Z) :
  strptime_Ymd v = Some (yy, mm, dd) ->
  0 <= yy /\
  ((v = yy * 10000 + mm * 100 + dd /\ 1 <= mm <= 12 /\ 1 <= dd <= 31) \/
   (v = yy * 1000 + mm * 10 + dd /\ 1 <= mm <= 12 /\ 1 <= dd <= 9) \/
   (v = yy * 1000 + mm * 100 + dd /\ 1 <= mm <= 9 /\ 1 <= dd <= 31) \/
   (v = yy * 100 + mm * 10 + dd /\ 1 <= mm <= 9 /\ 1 <= dd <= 9)).
Proof.
  unfold strptime_Ymd, month_2digit, day_2digit.
  destruct (Z.ltb_spec v 100000); [discriminate|].
  destruct (Z.ltb_spec v 1000000).
  { destruct (Z.eqb_spec ((v / 10) mod 10) 0); cbn; [discriminate|].
    destruct (Z.eqb_spec (v mod 10) 0); cbn; [discriminate|].
    intros [= <- <- <-]. split; [Z.div_mod_to_equations; lia|].
    right. right. right. Z.div_mod_to_equations. lia. }
  destruct (Z.ltb_spec v 10000000).
  { destruct (Z.leb_spec 1 ((v / 10) mod 100));
      destruct (Z.leb_spec ((v / 10) mod 100) 12); cbn.
    - destruct (Z.eqb_spec (v mod 10) 0); cbn.
      + destruct (Z.eqb_spec ((v / 100) mod 10) 1); cbn; [|discriminate].
        destruct (Z.eqb_spec ((v / 10) mod 10) 0); cbn; [discriminate|].
        intros [= <- <- <-]. split; [Z.div_mod_to_equations; lia|].
        right. right. left. Z.div_mod_to_equations. lia.
      + intros [= <- <- <-]. split; [Z.div_mod_to_equations; lia|].
        right. left. Z.div_mod_to_equations. lia.
    - destruct (Z.eqb_spec ((v / 100) mod 10) 0); cbn; [discriminate|].
      destruct (Z.leb_spec 1 (v mod 100)); destruct (Z.leb_spec (v mod 100) 31);
        cbn; try discriminate.
      intros [= <- <- <-]. split; [Z.div_mod_to_equations; lia|].
      right. right. left. Z.div_mod_to_equations. lia.
    - destruct (Z.eqb_spec ((v / 100) mod 10) 0); cbn; [discriminate|].
      destruct (Z.leb_spec 1 (v mod 100)); destruct (Z.leb_spec (v mod 100) 31);
        cbn; try discriminate.
      intros [= <- <- <-]. split; [Z.div_mod_to_equations; lia|].
      right. right. left. Z.div_mod_to_equations. lia.
    - lia. }
  destruct (Z.ltb_spec v 100000000); [|discriminate].
  destruct (Z.leb_spec 1 ((v / 100) mod 100));
    destruct (Z.leb_spec ((v / 100) mod 100) 12);
    destruct (Z.leb_spec 1 (v mod 100)); destruct (Z.leb_spec (v mod 100) 31);
    cbn; try discriminate.
  intros [= <- <- <-]. split; [Z.div_mod_to_equations; lia|].
  left. Z.div_mod_to_equations. lia.
Qed.

Lemma days_in_month_le (y m : Z) : 28 <= days_in_month y m <= 31.
Proof.
  unfold days_in_month. destruct (m =? 2); [destruct (is_leap y); lia|].
  destruct (_ || _); lia.
Qed.

Lemma valid_date_range (y m d : Z) :
  valid_date y m d = true -> 1 <= m <= 12 /\ 1 <= d <= 31.
Proof.
  unfold valid_date. rewrite !andb_true_iff, !Z.leb_le.
  pose proof (days_in_month_le y m). lia.
Qed.

(** On a four-digit year and a day of at most two digits the date that
    pandas assembles is the triple itself, when it is a date. *)
Lemma to_datetime_plain (y m d : Z) :
  1000 <= y <= 9999 -> 1 <= m <= 12 -> 0 <= d <= 99 ->
  to_datetime (Some y) (Num m) (Some d)
  = if valid_date y m d && in_bounds y m d
    then Some (mkTimestamp y m d) else None.
Proof.
  intros Hy Hm Hd. unfold to_datetime. cbn [to_numeric].
  rewrite wrap64_small by (unfold yyyymmdd; lia).
  rewrite strptime_Ymd_plain by assumption.
  destruct (day_2digit d) eqn:E; [reflexivity|].
  destruct (valid_date y m d) eqn:Ev; [|reflexivity].
  apply valid_date_range in Ev. unfold day_2digit in E.
  apply andb_false_iff in E as [E|E]; apply Z.leb_gt in E; lia.
Qed.

Lemma raw_date_plain (r : Row) (y m d : Z) (name : string) :
  Year r = Some y -> Month r = Str name -> month_map !! name = Some m ->
  fillna 1 (Day r) = Some d ->
  raw_date r = to_datetime (Some y) (Num m) (Some d).
Proof.
  intros Hy Hm Hname Hd. unfold raw_date, map_dict.
  now rewrite Hy, Hm, Hname, Hd.
Qed.

Lemma raw_date_calendar (r : Row) (d : Timestamp) :
  raw_date r = Some d ->
  valid_date (ts_year d) (ts_month d) (ts_day d) = true /\
  in_bounds (ts_year d) (ts_month d) (ts_day d) = true /\
  is_Some (Year r) /\
  exists name m, Month r = Str name /\ month_map !! name = Some m.
Proof.
  unfold raw_date, to_datetime. rewrite to_numeric_map_dict. intros H.
  destruct (Year r) as [y|] eqn:Ey; [|discriminate].
  destruct (Month r) as [|z|name] eqn:En; try discriminate.
  destruct (month_map !! name) as [m|] eqn:Em; [|discriminate].
  destruct (fillna 1 (Day r)) as [dd|] eqn:Ed; [|discriminate].
  destruct (strptime_Ymd _) as [[[yy mm] d']|]; [|discriminate].
  destruct (valid_date yy mm d' && in_bounds yy mm d') eqn:Ev; [|discriminate].
  injection H as <-. apply andb_true_iff in Ev as [Hv Hb]. cbn.
  repeat split; try assumption; eauto.
Qed.

Lemma raw_date_not_a_name (r : Row) :
  (forall name, Month r = Str name -> month_map !! name = None) ->
  raw_date r = None.
Proof.
  intros Hname. unfold raw_date, to_datetime. rewrite to_numeric_map_dict.
  destruct (Year r) as [y|]; [|reflexivity].
  destruct (Month r) as [|k|name]; try reflexivity.
  now rewrite (Hname name eq_refl).
Qed.

(** February 30 is read as no date, whatever the year, short of a sum that
    overflows int64. *)
Lemma to_datetime_february_30 (y : Z) :
  -900000000000000 <= y <= 900000000000000 ->
  to_datetime (Some y) (Num 2) (Some 30) = None.
Proof.
  intros Hy. unfold to_datetime. cbn [to_numeric].
  rewrite wrap64_small by (unfold yyyymmdd; lia). unfold yyyymmdd.
  destruct (strptime_Ymd _) as [[[yy mm] dd]|] eqn:E; [|reflexivity].
  apply strptime_Ymd_shape in E as [Hyy Hs].
  assert (Hmd : mm = 2 /\ dd = 30) by lia. destruct Hmd as [-> ->].
  assert (Hv : valid_date yy 2 30 = false).
  { unfold valid_date, days_in_month. cbn. now destruct (is_leap yy). }
  now rewrite Hv.
Qed.

Lemma loaded_rows_with_date (df : DataFrame) (r : Row) :
  has_required df = true -> r ∈ loaded_rows df ->
  exists r0 d, r0 ∈ rows df /\ raw_date r0 = Some d /\ r = with_date r0 d.
Proof.
  intros H Hr. rewrite loaded_rows_normalize in Hr by exact H.
  apply list_elem_of_omap in Hr as (r0 & Hin & Hn).
  unfold normalize in Hn. destruct (raw_date r0) as [d|] eqn:E; [|discriminate].
  injection Hn as <-. now exists r0, d.
Qed.

Lemma has_required_false (df : DataFrame) (col : string) :
  col ∈ required_columns -> col ∉ columns df -> has_required df = false.
Proof.
  intros Hreq Hcol. unfold has_required.
  apply not_true_is_false. intros Hall.
  rewrite forallb_forall in Hall.
  apply list_elem_of_In in Hreq. specialize (Hall col Hreq).
  unfold has_column in Hall. apply existsb_exists in Hall as (c & Hin & Heq).
  apply String.eqb_eq in Heq. subst c.
  apply Hcol. now apply list_elem_of_In.
Qed.

Lemma loaded_rows_drop (cols : list string) (pre post : list Row) (r : Row) :
  has_required (mkDataFrame cols (pre ++ r :: post)) = true ->
  raw_date r = None ->
  loaded_rows (mkDataFrame cols (pre ++ r :: post))
  = loaded_rows (mkDataFrame cols (pre ++ post)).
Proof.
  intros H E.
  rewrite !loaded_rows_normalize by exact H. cbn [rows].
  rewrite !omap_app. cbn [omap list_omap]. unfold normalize at 2.
  now rewrite E.
Qed.

Lemma loaded_rows_keep (cols : list string) (pre post : list Row) (r : Row)
    (d : Timestamp) :
  has_required (mkDataFrame cols (pre ++ r :: post)) = true ->
  raw_date r = Some d ->
  loaded_rows (mkDataFrame cols (pre ++ r :: post))
  = loaded_rows (mkDataFrame cols pre) ++ with_date r d
      :: loaded_rows (mkDataFrame cols post).
Proof.
  intros H E.
  rewrite !loaded_rows_normalize by exact H. cbn [rows].
  rewrite omap_app. cbn [omap list_omap]. unfold normalize at 2.
  now rewrite E.
Qed.

(** C1 (as stated, refuted): on a table without the [Day] column
    [load_data] does not fail; it shows the message and returns the raw
    table, row included, to its caller. *)
Lemma load_data_without_Day_returns :
  has_required table_without_Day = false /\
  load_data table_without_Day = ([missing_message], Returned table_without_Day) /\
  rows table_without_Day <> [] /\
  ~ (exists exn, snd (load_data table_without_Day) = Raised exn).
Proof.
  repeat split; try reflexivity.
  - discriminate.
  - intros [exn H]. discriminate H.
Qed.

(** C1 (amended): when one of the columns [Year], [Month], [Day] is not in
    the header, [load_data] shows the diagnostic, runs none of the
    normalising statements, raises nothing and returns the raw table
    unchanged. *)
Theorem load_data_missing_column (df : DataFrame) (col : string) :
  col ∈ required_columns -> col ∉ columns df ->
  load_data df = ([missing_message], Returned df).
Proof.
  intros Hreq Hcol. unfold load_data.
  now rewrite (has_required_false df col Hreq Hcol).
Qed.

(** The table without a [Day] column. *)
Lemma load_data_missing_column_witness :
  load_data table_without_Day = ([missing_message], Returned table_without_Day).
Proof.
  apply (load_data_missing_column table_without_Day "Day").
  - apply list_elem_of_In. simpl. tauto.
  - intros H. apply list_elem_of_In in H. simpl in H.
    repeat (destruct H as [H|H]; [discriminate H|]). exact H.
Defined.

(** C2 (as stated, refuted): a month given as the number 10, or as the text
    "10", does not go through the mapping unchanged; it becomes NaN and both
    records are dropped although 1972-10-13 and 1977-10-20 are dates. *)
Lemma numeric_month_not_passed_through :
  has_required table_numeric_month = true /\
  map_dict month_map (Num 10) = NaN /\
  map_dict month_map (Str "10") = NaN /\
  to_numeric (Str "10") = Some 10 /\
  valid_date 1972 10 13 = true /\ valid_date 1977 10 20 = true /\
  load_data table_numeric_month
  = ([], Returned {| columns := all_columns ++ ["Date"]; rows := [] |}).
Proof.
  repeat split; vm_compute; reflexivity.
Qed.

(** C2 (amended): a raw month that is not one of the twelve full English
    month names, a number or a numeral between 1 and 12 included, is mapped
    to NaN; the date of its record is NaT and the record is dropped. *)
Theorem month_not_a_name_dropped (cols : list string) (pre post : list Row)
    (r : Row) :
  has_required (mkDataFrame cols (pre ++ r :: post)) = true ->
  (forall name, Month r = Str name -> month_map !! name = None) ->
  map_dict month_map (Month r) = NaN /\
  to_datetime (Year r) (map_dict month_map (Month r)) (fillna 1 (Day r)) = None /\
  loaded_rows (mkDataFrame cols (pre ++ r :: post))
  = loaded_rows (mkDataFrame cols (pre ++ post)).
Proof.
  intros H Hname.
  assert (E : map_dict month_map (Month r) = NaN).
  { destruct (Month r) as [|z|name]; try reflexivity.
    unfold map_dict. now rewrite (Hname name eq_refl). }
  assert (E' : raw_date r = None).
  { unfold raw_date. rewrite E. unfold to_datetime. cbn.
    now destruct (Year r). }
  split; [exact E|]. split; [exact E'|].
  now apply loaded_rows_drop.
Qed.

(** The table of numeric months: its first line is dropped, and so is the
    second. *)
Lemma month_not_a_name_dropped_witness :
  loaded_rows table_numeric_month = [].
Proof.
  pose proof (month_not_a_name_dropped all_columns []
                [mkRow (Some 1977) (Str "10") (Some 20) None (Some "USA")
                       (Some "L & J Company") (Some "Convair")
                       (Some 6) (Some 0)]
                (mkRow (Some 1972) (Num 10) (Some 13) None (Some "Uruguay")
                       (Some "Fuerza Aerea Uruguaya") (Some "Fairchild")
                       (Some 29) (Some 0))) as H.
  destruct H as (_ & _ & H).
  - reflexivity.
  - intros name E. discriminate E.
  - unfold table_numeric_month. cbn [app] in H. rewrite H. reflexivity.
Defined.




(** C7: a raw record without a day, whose year is one [Timestamp] can hold
    and whose month is a name of [month_map], is kept: it yields one record
    of the Dataset, at its place, with day 1 and the first of that month as
    its date. *)
Theorem missing_day_defaults_to_first (cols : list string)
    (pre post : list Row) (r : Row) (y m : Z) (name : string) :
  has_required (mkDataFrame cols (pre ++ r :: post)) = true ->
  Day r = None -> Year r = Some y -> 1678 <= y <= 2261 ->
  Month r = Str name -> month_map !! name = Some m ->
  loaded_rows (mkDataFrame cols (pre ++ r :: post))
  = loaded_rows (mkDataFrame cols pre)
    ++ {| Year := Some y; Month := Num m; Day := Some 1;
          Date := Some (mkTimestamp y m 1);
          Country_Region := Country_Region r; Operator := Operator r;
          Aircraft_Manufacturer := Aircraft_Manufacturer r;
          Fatalities_air := Fatalities_air r; Ground := Ground r |}
    :: loaded_rows (mkDataFrame cols post).
Proof.
  intros H Hd Hy Hrange Hm Hname.
  assert (E : raw_date r = Some (mkTimestamp y m 1)).
  { pose proof (month_map_range name m Hname) as Hmr.
    rewrite (raw_date_plain r y m 1 name Hy Hm Hname) by now rewrite Hd.
    rewrite to_datetime_plain by lia.
    assert (Hv : valid_date y m 1 = true).
    { unfold valid_date, days_in_month.
      repeat (apply andb_true_intro; split); try (apply Z.leb_le; lia).
      apply Z.leb_le.
      destruct (m =? 2); [destruct (is_leap y); lia|].
      destruct (_ || _); lia. }
    assert (Hb : in_bounds y m 1 = true).
    { unfold in_bounds, yyyymmdd. apply andb_true_intro.
      split; apply Z.leb_le; lia. }
    now rewrite Hv, Hb. }
  rewrite (loaded_rows_keep cols pre post r _ H E).
  unfold with_date. cbn. now rewrite Hd.
Qed.

(** The line of February 1958 without a day is kept as 1958-02-01. *)
Lemma missing_day_defaults_to_first_witness :
  loaded_rows table_days
  = [ {| Year := Some 1958; Month := Num 2; Day := Some 1;
         Date := Some (mkTimestamp 1958 2 1);
         Country_Region := Some "Germany";
         Operator := Some "British European Airways";
         Aircraft_Manufacturer := Some "Airspeed";
         Fatalities_air := Some 23; Ground := Some 0 |} ].
Proof.
  apply (missing_day_defaults_to_first all_columns [] [row_feb_30] row_no_day
           1958 2 "February"); try reflexivity.
  lia.
Defined.

(** * Properties of the filter *)

Section BooleanIndexing.
Context {A : Type}.

Lemma filter_filter_andb (f g : A -> bool) (l : list A) :
  List.filter g (List.filter f l) = List.filter (fun x => f x && g x) l.
Proof.
  induction l as [|x l IH]; [reflexivity|].
  cbn. destruct (f x); cbn; [destruct (g x)|]; now rewrite IH.
Qed.

Lemma filter_mask_Prop (f : A -> bool) (P : A -> Prop)
    `{!forall x, Decision (P x)} (l : list A) :
  (forall x, f x = true <-> P x) -> List.filter f l = filter P l.
Proof.
  intros Hf. induction l as [|x l IH]; [reflexivity|].
  cbn [List.filter]. rewrite filter_cons, IH.
  destruct (decide (P x)) as [Hx|Hx].
  - apply Hf in Hx. now rewrite Hx.
  - destruct (f x) eqn:E; [|reflexivity]. apply Hf in E. contradiction.
Qed.
End BooleanIndexing.

Lemma year_mask_spec (lo hi : Z) (r : Row) :
  series_ge (Year r) lo && series_le (Year r) hi = true <-> year_in_range lo hi r.
Proof.
  unfold series_ge, series_le, year_in_range.
  destruct (Year r) as [y|].
  - rewrite andb_true_iff, !Z.leb_le. tauto.
  - cbn. split; [discriminate|tauto].
Qed.

Lemma series_eq_spec (v : option string) (k : string) :
  series_eq v k = true <-> v = Some k.
Proof.
  unfold series_eq. destruct v as [s|].
  - rewrite String.eqb_eq. split; [now intros ->|now intros [= ->]].
  - split; discriminate.
Qed.

Lemma not_All_spec (s : string) :
  negb (String.eqb s "All") = true <-> s <> "All".
Proof.
  rewrite negb_true_iff. destruct (String.eqb_spec s "All"); split; congruence.
Qed.

Lemma filtered_rows (df : DataFrame) (sel : Selection) :
  rows (filtered_df df sel) = filter (matches sel) (rows df).
Proof.
  unfold filtered_df.
  destruct (negb (String.eqb (selected_country sel) "All")) eqn:Ec;
    destruct (negb (String.eqb (selected_airline sel) "All")) eqn:Ea;
    cbn [select rows]; rewrite ?filter_filter_andb;
    apply filter_mask_Prop; intros r; unfold matches; cbn beta;
    rewrite <- year_mask_spec, !andb_true_iff, ?series_eq_spec;
    rewrite <- (not_All_spec (selected_country sel)),
            <- (not_All_spec (selected_airline sel)), Ec, Ea;
    intuition congruence.
Qed.

(** C5: the filtered table keeps the header and holds exactly the records
    of the Dataset that satisfy the conjunction of the year-range test and
    of the country and operator tests that are not set to "All", in Dataset
    order; the comparisons are plain string equality.  With both select
    boxes on "All" only the year range decides. *)
Theorem filtered_df_matches (df : DataFrame) (sel : Selection) :
  columns (filtered_df df sel) = columns df /\
  rows (filtered_df df sel) = filter (matches sel) (rows df) /\
  (forall r, r ∈ rows (filtered_df df sel) <-> r ∈ rows df /\ matches sel r) /\
  rows (filtered_df df sel) `sublist_of` rows df /\
  (forall lo hi,
     rows (filtered_df df (mkSelection (lo, hi) "All" "All"))
     = filter (year_in_range lo hi) (rows df)).
Proof.
  pose proof (filtered_rows df) as Hrows.
  split; [|split; [|split; [|split]]].
  - unfold filtered_df. now repeat destruct (negb _).
  - apply Hrows.
  - intros r. rewrite Hrows, list_elem_of_filter. tauto.
  - rewrite Hrows. apply sublist_filter.
  - intros lo hi. rewrite Hrows. apply list_filter_iff.
    intros r. unfold matches. cbn. intuition congruence.
Qed.

(** * Properties of the metrics and of the chart inputs *)

Lemma filter_matches_fmap (sel : Selection) (h : Row -> Row) (l : list Row) :
  (forall r, matches sel (h r) <-> matches sel r) ->
  filter (matches sel) (h <$> l) = h <$> filter (matches sel) l.
Proof.
  intros Hh. induction l as [|r l IH]; [reflexivity|].
  rewrite fmap_cons, !filter_cons, IH.
  destruct (decide (matches sel (h r))) as [H|H];
    destruct (decide (matches sel r)) as [H'|H']; try reflexivity.
  - exfalso. apply H'. now apply Hh.
  - exfalso. apply H. now apply Hh.
Qed.

Lemma round_float64_small (z : Z) :
  Z.abs z < 9007199254740992 -> round_float64 z = z.
Proof.
  intros H. unfold round_float64.
  now destruct (Z.ltb_spec (Z.abs z) 9007199254740992); [|lia].
Qed.

Lemma exact_sum_le_sum_abs (s : list (option Z)) :
  Z.abs (exact_sum s) <= sum_abs s.
Proof.
  induction s as [|v s IH]; cbn; [lia|].
  unfold exact_sum, sum_abs in *. lia.
Qed.

Lemma sum_abs_nonneg (s : list (option Z)) : 0 <= sum_abs s.
Proof.
  induction s as [|v s IH]; cbn; [lia|]. unfold sum_abs in *. lia.
Qed.

Lemma sum_abs_filter (P : Row -> Prop) `{!forall r, Decision (P r)}
    (l : list Row) :
  sum_abs (Fatalities_air <$> filter P l) <= sum_abs (Fatalities_air <$> l).
Proof.
  induction l as [|r l IH]; [cbn; lia|].
  rewrite filter_cons. destruct (decide (P r)); rewrite ?fmap_cons;
    unfold sum_abs in *; cbn [foldr]; lia.
Qed.

(** Below 2^53 neither type of column departs from the sum in the
    integers. *)
Lemma series_sum_exact (int64 : bool) (s : list (option Z)) :
  sum_abs s < 9007199254740992 -> series_sum int64 s = exact_sum s.
Proof.
  intros Hs. unfold series_sum. destruct int64.
  - fold (exact_sum s). apply wrap64_small.
    pose proof (exact_sum_le_sum_abs s). lia.
  - assert (G : forall acc,
      Z.abs acc + sum_abs s < 9007199254740992 ->
      foldl (fun acc v => match v with
                          | Some z => round_float64 (acc + z)
                          | None => acc
                          end) acc s = acc + exact_sum s).
    { clear Hs. induction s as [|v s IH]; intros acc Hacc; cbn [foldl].
      - cbn. lia.
      - pose proof (sum_abs_nonneg s) as Hn.
        assert (Ev : sum_abs (v :: s) = Z.abs (from_option id 0 v) + sum_abs s)
          by reflexivity.
        assert (Ee : exact_sum (v :: s) = from_option id 0 v + exact_sum s)
          by reflexivity.
        rewrite Ev in Hacc. rewrite Ee. destruct v as [z|]; cbn in *.
        + rewrite round_float64_small by lia. rewrite IH by lia. lia.
        + rewrite IH by lia. lia. }
    rewrite G by lia. lia.
Qed.

Lemma exact_sum_fatalities (l : list Row) :
  exact_sum (Fatalities_air <$> l)
  = foldr Z.add 0 ((fun r => match Fatalities_air r with
                             | Some a => a
                             | None => 0
                             end) <$> l).
Proof.
  induction l as [|r l IH]; [reflexivity|].
  rewrite !fmap_cons. cbn [foldr]. rewrite <- IH.
  unfold exact_sum. cbn [foldr]. now destruct (Fatalities_air r).
Qed.

(** C10 (as stated, refuted): on two records whose air-fatality counts are
    both 2^63 - 1, the "Total Fatalities" card does not show their sum,
    2^64 - 2: the int64 total wraps around and the card shows -2. *)
Lemma total_fatalities_wraps :
  rows (filtered_df two_huge_counts default_selection) = rows two_huge_counts /\
  foldr Z.add 0 ((fun r => match Fatalities_air r with
                           | Some a => a
                           | None => 0
                           end) <$> rows two_huge_counts)
  = 18446744073709551614 /\
  total_fatalities (render two_huge_counts default_selection) = -2.
Proof.
  repeat split; reflexivity.
Qed.

(** C10 (amended): as long as the magnitudes of the air-fatality counts of
    the Dataset add up to less than 2^53, the "Total Fatalities" card shows
    the sum, over the records of the filtered table only, of the air
    fatalities, a missing value counting for 0 (beyond that bound the int64
    total wraps around and the float64 total rounds); the ground fatalities
    play no part: whatever they are replaced with, the total is the same. *)
Theorem total_fatalities_exact_sum (df : DataFrame) (sel : Selection) :
  sum_abs (Fatalities_air <$> rows df) < 9007199254740992 ->
  total_fatalities (render df sel)
  = foldr Z.add 0 ((fun r => match Fatalities_air r with
                             | Some a => a
                             | None => 0
                             end) <$> filter (matches sel) (rows df)) /\
  (forall ground : Row -> option Z,
     total_fatalities
       (render {| columns := columns df;
                  rows := (fun r => set_Ground (ground r) r) <$> rows df |} sel)
     = total_fatalities (render df sel)).
Proof.
  intros Hb. split.
  - unfold render. cbn [total_fatalities]. rewrite filtered_rows.
    rewrite series_sum_exact.
    + apply exact_sum_fatalities.
    + pose proof (sum_abs_filter (matches sel) (rows df)). lia.
  - intros ground. unfold render. cbn [total_fatalities].
    rewrite !filtered_rows. cbn [rows].
    rewrite filter_matches_fmap by (intros r; reflexivity).
    rewrite <- !list_fmap_compose. reflexivity.
Qed.

(** The ten records: their air fatalities add up to 140. *)
Lemma total_fatalities_exact_sum_witness :
  total_fatalities (render ten_records default_selection) = 140.
Proof.
  destruct (total_fatalities_exact_sum ten_records default_selection) as [H _].
  - vm_compute. reflexivity.
  - rewrite H. reflexivity.
Defined.

(** C9: the yearly trend, the top countries, the fatality correlation and
    the monthly pattern are computed from the whole Dataset: two runs on
    the same Dataset with different sidebar selections give the same four
    chart inputs.  The four metric cards and the preview follow the
    selection: there is a Dataset and two selections on which all five
    differ. *)
Theorem charts_ignore_selection :
  (forall (df : DataFrame) (sel1 sel2 : Selection),
     yearly_trend (render df sel1) = yearly_trend (render df sel2) /\
     top_countries (render df sel1) = top_countries (render df sel2) /\
     fatalities_correlation (render df sel1)
     = fatalities_correlation (render df sel2) /\
     monthly (render df sel1) = monthly (render df sel2)) /\
  (exists (df : DataFrame) (sel1 sel2 : Selection),
     total_crashes (render df sel1) <> total_crashes (render df sel2) /\
     total_fatalities (render df sel1) <> total_fatalities (render df sel2) /\
     countries_affected (render df sel1) <> countries_affected (render df sel2) /\
     airlines_involved (render df sel1) <> airlines_involved (render df sel2) /\
     preview (render df sel1) <> preview (render df sel2)).
Proof.
  split.
  - intros df sel1 sel2. unfold render. cbn. auto.
  - exists two_years, (mkSelection (1940, 2024) "All" "All"),
           (mkSelection (1940, 1960) "All" "All").
    repeat split; vm_compute; discriminate.
Qed.

Lemma regplot_points_rows (l : list Row) :
  regplot_points (Fatalities_air <$> l) (Ground <$> l)
  = omap (fun r => match Fatalities_air r, Ground r with
                   | Some a, Some g => Some (a, g)
                   | _, _ => None
                   end) l.
Proof.
  unfold regplot_points. induction l as [|r l IH]; [reflexivity|].
  cbn. rewrite IH.
  now destruct (Fatalities_air r), (Ground r).
Qed.

(** C8: the points of the fatality correlation are the (air, ground) pairs
    of the records in which both counts are present, in order; a record
    with a missing count gives no point (no 0 stands in for it), so there
    are as many points as records with both counts.  Ten records of which
    two lack the ground count give eight points. *)
Theorem correlation_points_both_present (df : DataFrame) (sel : Selection) :
  let points := fatalities_correlation (render df sel) in
  let complete :=
    filter (fun r => is_Some (Fatalities_air r) /\ is_Some (Ground r)) (rows df) in
  points = omap (fun r => match Fatalities_air r, Ground r with
                          | Some a, Some g => Some (a, g)
                          | _, _ => None
                          end) (rows df) /\
  length points = length complete /\
  (forall a g, (a, g) ∈ points <->
     exists r, r ∈ rows df /\ Fatalities_air r = Some a /\ Ground r = Some g) /\
  length (rows ten_records) = 10%nat /\
  length (filter (fun r => Ground r = None) (rows ten_records)) = 2%nat /\
  length (fatalities_correlation (render ten_records sel)) = 8%nat.
Proof.
  cbn zeta.
  assert (E : fatalities_correlation (render df sel)
    = (fun r => (default 0 (Fatalities_air r), default 0 (Ground r)))
        <$> filter (fun r => is_Some (Fatalities_air r) /\ is_Some (Ground r))
              (rows df)).
  { unfold render. cbn [fatalities_correlation]. rewrite regplot_points_rows.
    induction (rows df) as [|r l IH]; [reflexivity|].
    cbn [omap list_omap]. rewrite filter_cons, IH.
    destruct (decide _) as [[[a Ha] [g Hg]]|H].
    - rewrite fmap_cons, Ha, Hg. reflexivity.
    - destruct (Fatalities_air r) as [a|], (Ground r) as [g|];
        try reflexivity.
      exfalso. apply H. split; eexists; reflexivity. }
  split; [unfold render; cbn [fatalities_correlation];
          apply regplot_points_rows|].
  split; [now rewrite E, length_fmap|].
  split; [|repeat split; reflexivity].
  intros a g. rewrite E, list_elem_of_fmap. split.
  - intros (r & Hr & Hin). apply list_elem_of_filter in Hin as [[[a' Ha] [g' Hg]] Hin].
    rewrite Ha, Hg in Hr. cbn in Hr. injection Hr as -> ->. eauto.
  - intros (r & Hin & Ha & Hg). exists r. split.
    + now rewrite Ha, Hg.
    + apply list_elem_of_filter. split; [|exact Hin].
      rewrite Ha, Hg. split; eexists; reflexivity.
Qed.

(** * Properties of [groupby(..).size()] *)

Lemma bump_keys (k x : Z) (l : list (Z * nat)) :
  x ∈ (bump k l).*1 <-> x = k \/ x ∈ l.*1.
Proof.
  induction l as [|[k' c] l IH]; cbn.
  - rewrite list_elem_of_singleton, elem_of_nil. tauto.
  - destruct (Z.ltb_spec k k'); [|destruct (Z.eqb_spec k k')]; cbn.
    + rewrite !elem_of_cons. tauto.
    + subst k'. rewrite !elem_of_cons. tauto.
    + rewrite !elem_of_cons, IH. tauto.
Qed.

Lemma bump_sorted (k : Z) (l : list (Z * nat)) :
  StronglySorted Z.lt l.*1 -> StronglySorted Z.lt (bump k l).*1.
Proof.
  induction l as [|[k' c] l IH]; cbn; intros Hs.
  - repeat constructor.
  - apply StronglySorted_cons in Hs as [Hall Hs].
    destruct (Z.ltb_spec k k'); [|destruct (Z.eqb_spec k k')]; cbn.
    + apply StronglySorted_cons. split.
      * constructor; [assumption|].
        eapply Forall_impl; [exact Hall|]. cbn. intros; lia.
      * now apply StronglySorted_cons.
    + now apply StronglySorted_cons.
    + apply StronglySorted_cons. split; [|now apply IH].
      apply Forall_forall. intros x Hx. apply bump_keys in Hx as [->|Hx].
      * lia.
      * rewrite Forall_forall in Hall. now apply Hall.
Qed.

Lemma bump_positive (k : Z) (l : list (Z * nat)) :
  Forall (fun p => (0 < p.2)%nat) l -> Forall (fun p => (0 < p.2)%nat) (bump k l).
Proof.
  induction l as [|[k' c] l IH]; cbn; intros Hp.
  - repeat constructor.
  - apply Forall_cons in Hp as [Hc Hp]. cbn in Hc.
    destruct (k <? k'); [|destruct (k =? k')];
      repeat (constructor; cbn; try lia; try assumption).
    now apply IH.
Qed.

Lemma entry_absent (k : Z) (l : list (Z * nat)) :
  k ∉ l.*1 -> entry k l = 0%nat.
Proof.
  induction l as [|[k' c] l IH]; cbn; [reflexivity|].
  rewrite not_elem_of_cons. intros [Hne Hk].
  destruct (Z.eqb_spec k k'); [contradiction|now apply IH].
Qed.

Lemma entry_bump (k x : Z) (l : list (Z * nat)) :
  StronglySorted Z.lt l.*1 ->
  entry x (bump k l) = (entry x l + (if (x =? k)%Z then 1 else 0))%nat.
Proof.
  induction l as [|[k' c] l IH]; cbn; intros Hs.
  - now destruct (x =? k).
  - apply StronglySorted_cons in Hs as [Hall Hs]. rewrite Forall_forall in Hall.
    destruct (Z.ltb_spec k k'); [|destruct (Z.eqb_spec k k')]; cbn.
    + destruct (Z.eqb_spec x k) as [->|Hxk]; [|lia].
      destruct (Z.eqb_spec k k'); [lia|].
      rewrite entry_absent; [reflexivity|].
      intros Hin. apply Hall in Hin. lia.
    + subst k'. destruct (Z.eqb_spec x k); lia.
    + destruct (Z.eqb_spec x k') as [->|Hxk'].
      * destruct (Z.eqb_spec k' k); lia.
      * now apply IH.
Qed.

Lemma groupby_size_sorted (keys : list (option Z)) :
  StronglySorted Z.lt (groupby_size keys).*1.
Proof.
  induction keys as [|[k|] keys IH]; cbn.
  - constructor.
  - now apply bump_sorted.
  - exact IH.
Qed.

Lemma groupby_size_positive (keys : list (option Z)) :
  Forall (fun p => (0 < p.2)%nat) (groupby_size keys).
Proof.
  induction keys as [|[k|] keys IH]; cbn.
  - constructor.
  - now apply bump_positive.
  - exact IH.
Qed.

Lemma entry_groupby_size (x : Z) (keys : list (option Z)) :
  entry x (groupby_size keys) = length (filter (fun v => v = Some x) keys).
Proof.
  induction keys as [|[k|] keys IH]; cbn [groupby_size foldr].
  - reflexivity.
  - fold (groupby_size keys).
    rewrite entry_bump by apply groupby_size_sorted.
    rewrite IH, filter_cons.
    destruct (decide (Some k = Some x)) as [[= ->]|Hne].
    + rewrite Z.eqb_refl. cbn. lia.
    + destruct (Z.eqb_spec x k); [congruence|lia].
  - fold (groupby_size keys). rewrite IH, filter_cons.
    destruct (decide _) as [?|_]; [discriminate|reflexivity].
Qed.

Lemma entry_elem (k : Z) (c : nat) (l : list (Z * nat)) :
  StronglySorted Z.lt l.*1 -> Forall (fun p => (0 < p.2)%nat) l ->
  (k, c) ∈ l <-> entry k l = c /\ (0 < c)%nat.
Proof.
  induction l as [|[k' c'] l IH]; cbn; intros Hs Hp.
  - rewrite elem_of_nil. lia.
  - apply StronglySorted_cons in Hs as [Hall Hs]. rewrite Forall_forall in Hall.
    apply Forall_cons in Hp as [Hc Hp]. cbn in Hc.
    rewrite elem_of_cons, (IH Hs Hp).
    destruct (Z.eqb_spec k k') as [->|Hne].
    + split.
      * intros [[= ->]|[He Hpos]]; [lia|].
        rewrite entry_absent in He; [lia|].
        intros Hin. apply Hall in Hin. lia.
      * intros [-> _]. now left.
    + split.
      * intros [[= -> ->]|H]; [contradiction|exact H].
      * intros H. now right.
Qed.

(** C3 (as stated, refuted): on an empty Dataset the monthly series is
    empty, not twelve zero counts; on a Dataset with records in March and
    July only it has two entries and no entry for the other ten months. *)
Lemma monthly_is_not_dense :
  monthly (render no_records default_selection) = [] /\
  length (monthly (render no_records default_selection)) <> 12%nat /\
  monthly (render two_years default_selection) = [(3, 1%nat); (7, 1%nat)] /\
  (1, 0%nat) ∉ monthly (render two_years default_selection).
Proof.
  repeat split; try reflexivity; try discriminate.
  vm_compute. intros H.
  repeat (apply elem_of_cons in H as [H|H]; [discriminate H|]).
  now apply elem_of_nil in H.
Qed.

(** C3 (amended): the monthly series has one (month, count) pair for each
    month that occurs among the records, in ascending month order, the
    count being the number of records of that month; a month with no record
    has no pair (no 0 is reported), so the series of an empty table is
    empty. *)
Theorem monthly_counts_present_months (df : DataFrame) (sel : Selection) :
  StronglySorted Z.lt (monthly (render df sel)).*1 /\
  (forall k c, (k, c) ∈ monthly (render df sel)
               <-> c = count_month k (rows df) /\ (0 < c)%nat) /\
  (forall k, k ∈ (monthly (render df sel)).*1
             <-> exists r, r ∈ rows df /\ Month r = Num k) /\
  monthly (render {| columns := columns df; rows := [] |} sel) = [].
Proof.
  assert (Hcount : forall k,
    entry k (monthly (render df sel)) = count_month k (rows df)).
  { intros k. unfold render. cbn [monthly]. rewrite entry_groupby_size.
    unfold count_month. induction (rows df) as [|r l IH]; [reflexivity|].
    rewrite fmap_cons, !filter_cons.
    destruct (decide (month_key (Month r) = Some k)) as [H|H];
      destruct (decide (Month r = Num k)) as [H'|H']; cbn; rewrite ?IH;
      try reflexivity.
    - exfalso. apply H'. destruct (Month r); cbn in H; congruence.
    - exfalso. apply H. now rewrite H'. }
  assert (Hpair : forall k c, (k, c) ∈ monthly (render df sel)
               <-> c = count_month k (rows df) /\ (0 < c)%nat).
  { intros k c. rewrite <- Hcount.
    unfold render at 1. cbn [monthly].
    rewrite entry_elem by
      (apply groupby_size_sorted || apply groupby_size_positive).
    unfold render. cbn [monthly]. intuition congruence. }
  split; [apply groupby_size_sorted|]. split; [exact Hpair|]. split; [|reflexivity].
  intros k. rewrite list_elem_of_fmap. split.
  - intros ([k' c] & -> & Hin). cbn. apply Hpair in Hin as [-> Hpos].
    unfold count_month in Hpos.
    destruct (filter _ (rows df)) as [|r l] eqn:E; [cbn in Hpos; lia|].
    assert (Hr : r ∈ filter (fun r => Month r = Num k') (rows df))
      by (rewrite E; left).
    apply list_elem_of_filter in Hr as [Hm Hr]. eauto.
  - intros (r & Hr & Hm). exists (k, count_month k (rows df)). split; [reflexivity|].
    apply Hpair. split; [reflexivity|].
    unfold count_month.
    assert (Hin : r ∈ filter (fun r => Month r = Num k) (rows df))
      by (apply list_elem_of_filter; auto).
    destruct (filter _ (rows df)); [now apply elem_of_nil in Hin|cbn; lia].
Qed.

(** * Properties of [value_counts] *)

Section Before.
Context {A : Type}.
Implicit Types (x y z : A) (l : list A).

Lemma before_app_l x y l l' : before x y l -> before x y (l ++ l').
Proof.
  intros (l1 & l2 & l3 & ->). exists l1, l2, (l3 ++ l').
  rewrite <- app_assoc. cbn. rewrite <- app_assoc. reflexivity.
Qed.

Lemma before_take x y n l : before x y (take n l) -> before x y l.
Proof.
  intros H. rewrite <- (take_drop n l). now apply before_app_l.
Qed.

Lemma before_sorted (R : A -> A -> Prop) x y l :
  StronglySorted R l -> before x y l -> R x y.
Proof.
  intros Hs (l1 & l2 & l3 & ->).
  apply StronglySorted_app_1_r in Hs.
  apply StronglySorted_cons in Hs as [Hall _].
  rewrite Forall_forall in Hall. apply Hall.
  apply elem_of_app. right. left.
Qed.
End Before.

(** The counting pass. *)
Lemma tally_keys (k : string) (l : list (string * nat)) :
  (tally k l).*1 = if decide (k ∈ l.*1) then l.*1 else l.*1 ++ [k].
Proof.
  induction l as [|[k' c] l IH]; cbn.
  - now rewrite decide_False by apply not_elem_of_nil.
  - destruct (String.eqb_spec k k') as [->|Hne]; cbn.
    + now rewrite decide_True by left.
    + rewrite IH. destruct (decide (k ∈ l.*1)) as [H|H].
      * now rewrite decide_True by now right.
      * rewrite decide_False; [reflexivity|].
        rewrite not_elem_of_cons. tauto.
Qed.

Lemma count_values_snoc (s : list (option string)) (v : option string) :
  count_values (s ++ [v])
  = match v with
    | Some k => tally k (count_values s)
    | None => count_values s
    end.
Proof. unfold count_values. now rewrite foldl_app. Qed.

Lemma count_values_keys (k : string) (s : list (option string)) :
  k ∈ (count_values s).*1 <-> Some k ∈ s.
Proof.
  induction s as [|v s IH] using rev_ind.
  - cbn. rewrite !elem_of_nil. tauto.
  - rewrite count_values_snoc, elem_of_app, list_elem_of_singleton.
    destruct v as [k'|]; [|rewrite IH; intuition discriminate].
    rewrite tally_keys. destruct (decide (k' ∈ (count_values s).*1)) as [H|H].
    + rewrite IH. split; [tauto|]. intros [?|[= ->]]; [assumption|].
      now apply IH.
    + rewrite elem_of_app, list_elem_of_singleton, IH.
      intuition congruence.
Qed.

(** The sort. *)
Lemma insert_desc_cons (a x : string * nat) (l : list (string * nat)) :
  insert_desc a (x :: l)
  = if (a.2 <=? x.2)%nat then x :: insert_desc a l else a :: x :: l.
Proof. reflexivity. Qed.

Lemma insert_desc_elem (a q : string * nat) (l : list (string * nat)) :
  q ∈ insert_desc a l <-> q = a \/ q ∈ l.
Proof.
  induction l as [|x l IH]; [cbn|rewrite insert_desc_cons].
  - rewrite list_elem_of_singleton, elem_of_nil. tauto.
  - destruct (a.2 <=? x.2)%nat.
    + rewrite !elem_of_cons, IH. tauto.
    + rewrite !elem_of_cons. tauto.
Qed.

Lemma sort_desc_cons (a : string * nat) (l : list (string * nat)) :
  sort_desc (a :: l) = insert_desc a (sort_desc l).
Proof. reflexivity. Qed.

Lemma sort_desc_elem (q : string * nat) (l : list (string * nat)) :
  q ∈ sort_desc l <-> q ∈ l.
Proof.
  induction l as [|a l IH]; [reflexivity|].
  rewrite sort_desc_cons, insert_desc_elem, elem_of_cons, IH. tauto.
Qed.

Lemma insert_desc_sorted (a : string * nat) (l : list (string * nat)) :
  StronglySorted (fun p q => (q.2 <= p.2)%nat) l ->
  StronglySorted (fun p q => (q.2 <= p.2)%nat) (insert_desc a l).
Proof.
  induction l as [|x l IH]; [cbn|rewrite insert_desc_cons]; intros Hs.
  - repeat constructor.
  - destruct (Nat.leb_spec a.2 x.2) as [Hle|Hgt].
    + apply StronglySorted_cons in Hs as [Hall Hs].
      apply StronglySorted_cons. split; [|now apply IH].
      apply Forall_forall. intros y Hy.
      apply insert_desc_elem in Hy as [->|Hy]; [lia|].
      rewrite Forall_forall in Hall. now apply Hall.
    + apply StronglySorted_cons. split; [|exact Hs].
      apply StronglySorted_cons in Hs as [Hall Hs].
      constructor; [lia|].
      eapply Forall_impl; [exact Hall|]. cbn. intros; lia.
Qed.

Lemma sort_desc_sorted (l : list (string * nat)) :
  StronglySorted (fun p q => (q.2 <= p.2)%nat) (sort_desc l).
Proof.
  induction l as [|a l IH]; [constructor|].
  rewrite sort_desc_cons. now apply insert_desc_sorted.
Qed.

(** The counts. *)
Lemma tallied_tally (k x : string) (l : list (string * nat)) :
  tallied x (tally k l)
  = (tallied x l + (if String.eqb x k then 1 else 0))%nat.
Proof.
  induction l as [|[k' c] l IH]; cbn.
  - now destruct (String.eqb x k).
  - destruct (String.eqb_spec k k') as [->|Hne]; cbn.
    + destruct (String.eqb_spec x k'); lia.
    + destruct (String.eqb_spec x k') as [->|Hx]; [|exact IH].
      destruct (String.eqb_spec k' k); [congruence|lia].
Qed.

Lemma occurrences_snoc (k : string) (s : list (option string))
    (v : option string) :
  occurrences k (s ++ [v])
  = (occurrences k s + (if decide (v = Some k) then 1 else 0))%nat.
Proof.
  unfold occurrences. rewrite filter_app, length_app. f_equal.
  rewrite filter_cons, filter_nil. now destruct (decide (v = Some k)).
Qed.

Lemma tallied_count_values (k : string) (s : list (option string)) :
  tallied k (count_values s) = occurrences k s.
Proof.
  induction s as [|v s IH] using rev_ind; [reflexivity|].
  rewrite count_values_snoc, occurrences_snoc.
  destruct v as [k'|].
  - rewrite tallied_tally, IH. f_equal.
    destruct (String.eqb_spec k k') as [->|Hne].
    + now rewrite decide_True.
    + rewrite decide_False; [reflexivity|congruence].
  - rewrite IH, decide_False; [lia|discriminate].
Qed.

Lemma count_values_NoDup (s : list (option string)) :
  NoDup (count_values s).*1.
Proof.
  induction s as [|v s IH] using rev_ind; [constructor|].
  rewrite count_values_snoc. destruct v as [k|]; [|exact IH].
  rewrite tally_keys. destruct (decide _) as [H|H]; [exact IH|].
  apply NoDup_app. split; [exact IH|]. split.
  - intros x Hx Hk. apply list_elem_of_singleton in Hk. congruence.
  - apply NoDup_singleton.
Qed.

Lemma tallied_elem (k : string) (c : nat) (l : list (string * nat)) :
  NoDup l.*1 -> (k, c) ∈ l -> tallied k l = c.
Proof.
  induction l as [|[k' c'] l IH]; cbn; intros Hnd Hin.
  - now apply elem_of_nil in Hin.
  - apply NoDup_cons in Hnd as [Hk' Hnd].
    apply elem_of_cons in Hin as [[= -> ->]|Hin].
    + now rewrite String.eqb_refl.
    + destruct (String.eqb_spec k k') as [->|Hne]; [|now apply IH].
      exfalso. apply Hk'. apply list_elem_of_fmap. now exists (k', c).
Qed.

Lemma insert_desc_Permutation (a : string * nat) (l : list (string * nat)) :
  insert_desc a l ≡ₚ a :: l.
Proof.
  induction l as [|x l IH]; [reflexivity|].
  rewrite insert_desc_cons. destruct (a.2 <=? x.2)%nat; [|reflexivity].
  rewrite IH. apply Permutation_swap.
Qed.

Lemma sort_desc_Permutation (l : list (string * nat)) : sort_desc l ≡ₚ l.
Proof.
  induction l as [|a l IH]; [reflexivity|].
  now rewrite sort_desc_cons, insert_desc_Permutation, IH.
Qed.

Lemma count_values_count (k : string) (c : nat) (s : list (option string)) :
  (k, c) ∈ count_values s -> c = occurrences k s /\ (0 < c)%nat.
Proof.
  intros Hin.
  assert (E : c = occurrences k s).
  { rewrite <- tallied_count_values. symmetry.
    apply tallied_elem; [apply count_values_NoDup|exact Hin]. }
  split; [exact E|]. subst c.
  assert (Hk : Some k ∈ s).
  { apply count_values_keys. apply list_elem_of_fmap.
    exists (k, occurrences k s). split; [reflexivity|exact Hin]. }
  unfold occurrences.
  assert (Hf : Some k ∈ filter (fun v => v = Some k) s)
    by (apply list_elem_of_filter; auto).
  destruct (filter _ s); [now apply elem_of_nil in Hf|cbn; lia].
Qed.

(** The run modelled by [value_counts] is one of the possible results. *)
Lemma value_counts_is_result (s : list (option string)) :
  value_counts_result s (value_counts s).
Proof.
  split; [apply sort_desc_Permutation|apply sort_desc_sorted].
Qed.

(** C6 (as stated, refuted): on the column C, C, C, D, A (five times), B
    (five times), in which A is met before B, [value_counts] gives the table
    B 5, A 5, C 3, D 1, which holds the counted pairs by decreasing count.
    Its first three lines have B before A: the sort does not keep equal
    counts in the order in which they were first met. *)
Lemma ties_not_in_first_seen_order :
  first_seen_before "A" "B" countries_CDAB /\
  value_counts countries_CDAB
  = [("B", 5%nat); ("A", 5%nat); ("C", 3%nat); ("D", 1%nat)] /\
  value_counts_result countries_CDAB
    [("B", 5%nat); ("A", 5%nat); ("C", 3%nat); ("D", 1%nat)] /\
  head 3 (value_counts countries_CDAB)
  <> [("A", 5%nat); ("B", 5%nat); ("C", 3%nat)].
Proof.
  split; [|split; [reflexivity|split]].
  - exists [Some "C"; Some "C"; Some "C"; Some "D"; Some "A"; Some "A";
            Some "A"; Some "A"; Some "A"],
           [Some "B"; Some "B"; Some "B"; Some "B"].
    split; [reflexivity|]. split.
    + intros H. repeat (apply elem_of_cons in H as [H|H]; [discriminate H|]).
      now apply elem_of_nil in H.
    + do 4 right. left.
  - split.
    + apply (bool_decide_unpack _). vm_compute. exact I.
    + repeat constructor; cbn; lia.
  - discriminate.
Qed.

(** Of the column in which A and B occur five times, C three times and D
    once, every result starts with A and B, in one order or the other, and
    then C. *)
Lemma value_counts_ABCD (out : list (string * nat)) :
  value_counts_result countries_ABCD out ->
  head 3 out = [("A", 5%nat); ("B", 5%nat); ("C", 3%nat)] \/
  head 3 out = [("B", 5%nat); ("A", 5%nat); ("C", 3%nat)].
Proof.
  intros [Hp Hs]. symmetry in Hp. apply permutations_Permutation in Hp.
  vm_compute in Hp.
  repeat (apply elem_of_cons in Hp as [->|Hp];
          [first [left; reflexivity | right; reflexivity
                 | exfalso; apply (bool_decide_pack _) in Hs; vm_compute in Hs;
                   exact Hs]|]).
  now apply elem_of_nil in Hp.
Qed.

(** C6 (amended): the first [n] entries of a result of [value_counts] (the
    script takes 10 for the top countries) are (value, count) pairs, no
    value twice, the count being the number of occurrences of the value, in
    order of decreasing count; the order of two pairs with equal counts is
    not fixed.  On a column where A and B occur five times, C three times
    and D once, the first three are (A,5) and (B,5), in one order or the
    other, and then (C,3). *)
Theorem top_n_descending (s : list (option string))
    (out : list (string * nat)) (n : nat) (df : DataFrame) (sel : Selection) :
  value_counts_result s out ->
  (forall p q, before p q (head n out) -> (q.2 <= p.2)%nat) /\
  (forall k c, (k, c) ∈ head n out -> c = occurrences k s /\ (0 < c)%nat) /\
  NoDup (head n out).*1 /\
  (top_countries (render df sel)
   = head 10 (value_counts (Country_Region <$> rows df)) /\
   value_counts_result (Country_Region <$> rows df)
     (value_counts (Country_Region <$> rows df))) /\
  ((occurrences "A" countries_ABCD = 5 /\ occurrences "B" countries_ABCD = 5 /\
    occurrences "C" countries_ABCD = 3 /\ occurrences "D" countries_ABCD = 1)%nat /\
   forall out', value_counts_result countries_ABCD out' ->
     head 3 out' = [("A", 5%nat); ("B", 5%nat); ("C", 3%nat)] \/
     head 3 out' = [("B", 5%nat); ("A", 5%nat); ("C", 3%nat)]).
Proof.
  intros [Hp Hs]. split; [|split; [|split; [|split; [split|split]]]].
  - intros p q H. unfold head in H. apply before_take in H.
    exact (before_sorted _ p q out Hs H).
  - intros k c H. unfold head in H. apply subseteq_take in H.
    rewrite Hp in H. now apply count_values_count.
  - unfold head. rewrite fmap_take. eapply sublist_NoDup; [|apply sublist_take].
    rewrite Hp. apply count_values_NoDup.
  - reflexivity.
  - apply value_counts_is_result.
  - repeat split; reflexivity.
  - exact value_counts_ABCD.
Qed.

(** The result B 5, A 5, C 3, D 1 of the column C, C, C, D, A, ..., B, .... *)
Lemma top_n_descending_witness :
  NoDup (head 3 [("B", 5%nat); ("A", 5%nat); ("C", 3%nat); ("D", 1%nat)]).*1.
Proof.
  destruct (top_n_descending countries_CDAB
              [("B", 5%nat); ("A", 5%nat); ("C", 3%nat); ("D", 1%nat)]
              3 two_years default_selection) as (_ & _ & H & _).
  - split.
    + apply (bool_decide_unpack _). vm_compute. exact I.
    + repeat constructor; cbn; lia.
  - exact H.
Defined.

(** * Further properties of [load_data] *)

Lemma has_required_true (df : DataFrame) :
  has_required df = true <-> forall col, col ∈ required_columns -> col ∈ columns df.
Proof.
  unfold has_required. rewrite forallb_forall. split.
  - intros H col Hc. apply list_elem_of_In in Hc. specialize (H col Hc).
    unfold has_column in H. apply existsb_exists in H as (c & Hin & Heq).
    apply String.eqb_eq in Heq. subst c. now apply list_elem_of_In.
  - intros H col Hc. apply list_elem_of_In in Hc. specialize (H col Hc).
    unfold has_column. apply existsb_exists. exists col.
    split; [now apply list_elem_of_In|apply String.eqb_refl].
Qed.

Lemma has_column_spec (name : string) (df : DataFrame) :
  has_column name df = true <-> name ∈ columns df.
Proof.
  unfold has_column. rewrite existsb_exists. split.
  - intros (c & Hin & Heq). apply String.eqb_eq in Heq. subst c.
    now apply list_elem_of_In.
  - intros H. exists name. split; [now apply list_elem_of_In|apply String.eqb_refl].
Qed.

(** X1: [load_data] shows no diagnostic exactly when the header has the
    three columns [Year], [Month] and [Day]; otherwise it shows the one
    message, once. *)
Theorem diagnostic_iff_missing (df : DataFrame) :
  (fst (load_data df) = []
   <-> forall col, col ∈ required_columns -> col ∈ columns df) /\
  (fst (load_data df) = [missing_message]
   <-> exists col, col ∈ required_columns /\ col ∉ columns df).
Proof.
  unfold load_data. destruct (has_required df) eqn:H; cbn [fst].
  - pose proof (proj1 (has_required_true df) H) as Hall. split.
    + tauto.
    + split; [discriminate|]. intros (col & Hc & Hn). exfalso. auto.
  - split.
    + split; [discriminate|]. intros Hall.
      apply has_required_true in Hall. congruence.
    + split; [|reflexivity]. intros _.
      destruct (decide ("Year" ∈ columns df)) as [Hy|Hy];
        [|exists "Year"; split; [unfold required_columns; set_solver|exact Hy]].
      destruct (decide ("Month" ∈ columns df)) as [Hm|Hm];
        [|exists "Month"; split; [unfold required_columns; set_solver|exact Hm]].
      destruct (decide ("Day" ∈ columns df)) as [Hd|Hd];
        [|exists "Day"; split; [unfold required_columns; set_solver|exact Hd]].
      exfalso. assert (Ht : has_required df = true); [|congruence].
      apply has_required_true. intros col Hc. unfold required_columns in Hc.
      repeat (apply elem_of_cons in Hc as [->|Hc]; [assumption|]).
      now apply elem_of_nil in Hc.
Qed.

Lemma assign_columns_present (name : string) (upd : Row -> Row) (df : DataFrame) :
  name ∈ columns df -> columns (assign name upd df) = columns df.
Proof.
  intros H. unfold assign. cbn [columns].
  now rewrite (proj2 (has_column_spec name df) H).
Qed.

Lemma loaded_table_columns (df : DataFrame) :
  has_required df = true ->
  columns (loaded_table df)
  = if has_column "Date" df then columns df else columns df ++ ["Date"].
Proof.
  intros H. pose proof (proj1 (has_required_true df) H) as Hall.
  assert (Hy : "Year" ∈ columns df) by (apply Hall; unfold required_columns; set_solver).
  assert (Hm : "Month" ∈ columns df) by (apply Hall; unfold required_columns; set_solver).
  assert (Hd : "Day" ∈ columns df) by (apply Hall; unfold required_columns; set_solver).
  unfold loaded_table, load_data. rewrite H. cbn [snd].
  set (d1 := assign "Month" _ df).
  assert (E1 : columns d1 = columns df) by now apply assign_columns_present.
  set (d2 := assign "Day" _ d1).
  assert (E2 : columns d2 = columns df).
  { unfold d2. rewrite assign_columns_present; [exact E1|now rewrite E1]. }
  set (d3 := assign "Date" _ d2).
  assert (E3 : columns d3
    = if has_column "Date" df then columns df else columns df ++ ["Date"]).
  { unfold d3, assign. cbn [columns]. unfold has_column. now rewrite E2. }
  set (d4 := dropna_Date d3).
  assert (E4 : columns d4 = columns d3) by reflexivity.
  assert (Hsub : forall col, col ∈ columns df -> col ∈ columns d4).
  { intros col Hc. rewrite E4, E3. destruct (has_column "Date" df);
      [exact Hc|apply elem_of_app; now left]. }
  rewrite assign_columns_present.
  - rewrite assign_columns_present; [now rewrite E4|now apply Hsub].
  - rewrite assign_columns_present; now apply Hsub.
Qed.

Lemma loaded_table_keeps_columns (df : DataFrame) (col : string) :
  has_required df = true -> col ∈ columns df -> col ∈ columns (loaded_table df).
Proof.
  intros H Hc. rewrite loaded_table_columns by exact H.
  destruct (has_column "Date" df); [exact Hc|apply elem_of_app; now left].
Qed.

(** X2: when the three columns are there, the table handed back has the
    columns of the raw table, in their order, followed by a new [Date]
    column unless the raw table already had one; so [Year], [Month], [Day]
    and [Date] all exist in it. *)
Theorem loaded_header (df : DataFrame) :
  has_required df = true ->
  columns (loaded_table df)
  = (if has_column "Date" df then columns df else columns df ++ ["Date"]) /\
  "Date" ∈ columns (loaded_table df) /\
  (forall col, col ∈ columns df -> col ∈ columns (loaded_table df)).
Proof.
  intros H. split; [now apply loaded_table_columns|]. split.
  - rewrite loaded_table_columns by exact H.
    destruct (has_column "Date" df) eqn:Hc.
    + now apply has_column_spec.
    + apply elem_of_app. right. left.
  - intros col Hc. now apply loaded_table_keeps_columns.
Qed.

Lemma loaded_header_witness :
  columns (loaded_table table_three) = all_columns ++ ["Date"].
Proof.
  destruct (loaded_header table_three) as [H _]; [reflexivity|].
  exact H.
Defined.

Lemma normalize_carried_over (r out : Row) :
  normalize r = Some out -> carried_over r out.
Proof.
  unfold normalize. destruct (raw_date r) as [d|] eqn:E; [|discriminate].
  intros [= <-].
  destruct (raw_date_calendar r d E) as (_ & _ & Hy & Hm).
  unfold carried_over, with_date. cbn. repeat split; try reflexivity; assumption.
Qed.

(** X3: loading reorders nothing and invents nothing: the records of the
    loaded table come, in order, from raw lines (some lines being left
    out), each from a line that has a year and one of the twelve month
    names, with its line's day, or 1 when the line had none, and the
    country, operator, manufacturer and fatality counts of its line
    unchanged. *)
Theorem loaded_rows_from_raw (df : DataFrame) :
  has_required df = true ->
  exists kept, kept `sublist_of` rows df /\
               Forall2 carried_over kept (loaded_rows df) /\
               (length (loaded_rows df) <= length (rows df))%nat.
Proof.
  intros H. rewrite loaded_rows_normalize by exact H.
  assert (Hk : exists kept, kept `sublist_of` rows df /\
               Forall2 carried_over kept (omap normalize (rows df))).
  { induction (rows df) as [|r l (kept & Hs & Hf)].
    - exists []. split; [reflexivity|constructor].
    - cbn [omap list_omap]. destruct (normalize r) as [out|] eqn:E.
      + exists (r :: kept). split; [now apply sublist_skip|].
        constructor; [now apply normalize_carried_over|exact Hf].
      + exists kept. split; [now apply sublist_cons|exact Hf]. }
  destruct Hk as (kept & Hs & Hf). exists kept.
  split; [exact Hs|]. split; [exact Hf|].
  rewrite <- (Forall2_length _ _ _ Hf). now apply sublist_length.
Qed.

Lemma loaded_rows_from_raw_witness :
  exists kept, kept `sublist_of` rows table_three /\
               Forall2 carried_over kept (loaded_rows table_three) /\
               (length (loaded_rows table_three) <= 3)%nat.
Proof.
  apply (loaded_rows_from_raw table_three). reflexivity.
Defined.

(** X4: in a loaded table no date column is missing: every record has a
    date between 1677 and 2262, its year and month are those of the date,
    so that the year lies between 1677 and 2262 and the month between 1 and
    12, and it has a day (the day column is the raw one, filled with 1; it
    is not taken from the date). *)
Theorem loaded_date_columns_present (df : DataFrame) (r : Row) :
  has_required df = true -> r ∈ loaded_rows df ->
  exists y m d day,
    Date r = Some (mkTimestamp y m d) /\
    Year r = Some y /\ Month r = Num m /\ Day r = Some day /\
    1677 <= y <= 2262 /\ 1 <= m <= 12 /\ 1 <= d <= 31.
Proof.
  intros H Hr.
  destruct (loaded_rows_with_date df r H Hr) as (r0 & [y m d] & _ & E & ->).
  destruct (raw_date_calendar r0 _ E) as (Hv & Hb & _ & _). cbn in Hv, Hb.
  apply valid_date_range in Hv.
  unfold in_bounds, yyyymmdd in Hb. rewrite andb_true_iff, !Z.leb_le in Hb.
  exists y, m, d, (from_option id 1 (Day r0)). unfold with_date. cbn.
  repeat split; try reflexivity; try lia.
  now destruct (Day r0).
Qed.

Lemma loaded_date_columns_present_witness :
  exists y m d day,
    Date (with_date row_complete (mkTimestamp 1977 3 27))
    = Some (mkTimestamp y m d) /\
    Year (with_date row_complete (mkTimestamp 1977 3 27)) = Some y /\
    Month (with_date row_complete (mkTimestamp 1977 3 27)) = Num m /\
    Day (with_date row_complete (mkTimestamp 1977 3 27)) = Some day /\
    1677 <= y <= 2262 /\ 1 <= m <= 12 /\ 1 <= d <= 31.
Proof.
  apply (loaded_date_columns_present table_three); [reflexivity|].
  vm_compute. left.
Defined.

(** X5: a raw record whose year, month name and day form a calendar date
    that [Timestamp] can hold is kept, at its place, with that date, the
    number of its month and its other columns unchanged. *)
Theorem valid_record_kept (cols : list string) (pre post : list Row) (r : Row)
    (y m d : Z) (name : string) :
  has_required (mkDataFrame cols (pre ++ r :: post)) = true ->
  Year r = Some y -> Month r = Str name -> month_map !! name = Some m ->
  Day r = Some d -> valid_date y m d = true -> in_bounds y m d = true ->
  loaded_rows (mkDataFrame cols (pre ++ r :: post))
  = loaded_rows (mkDataFrame cols pre)
    ++ {| Year := Some y; Month := Num m; Day := Some d;
          Date := Some (mkTimestamp y m d);
          Country_Region := Country_Region r; Operator := Operator r;
          Aircraft_Manufacturer := Aircraft_Manufacturer r;
          Fatalities_air := Fatalities_air r; Ground := Ground r |}
    :: loaded_rows (mkDataFrame cols post).
Proof.
  intros H Hy Hm Hname Hd Hv Hb.
  assert (E : raw_date r = Some (mkTimestamp y m d)).
  { rewrite (raw_date_plain r y m d name Hy Hm Hname) by now rewrite Hd.
    pose proof (valid_date_range y m d Hv) as Hr.
    assert (Hy4 : 1000 <= y <= 9999).
    { unfold in_bounds, yyyymmdd in Hb.
      rewrite andb_true_iff, !Z.leb_le in Hb. lia. }
    rewrite to_datetime_plain by lia. now rewrite Hv, Hb. }
  rewrite (loaded_rows_keep cols pre post r _ H E).
  unfold with_date. cbn. now rewrite Hd.
Qed.

Lemma valid_record_kept_witness :
  loaded_rows table_three
  = [] ++ {| Year := Some 1977; Month := Num 3; Day := Some 27;
             Date := Some (mkTimestamp 1977 3 27);
             Country_Region := Some "Spain"; Operator := Some "KLM";
             Aircraft_Manufacturer := Some "Boeing";
             Fatalities_air := Some 248; Ground := Some 0 |}
       :: loaded_rows (mkDataFrame all_columns [row_no_day; row_feb_30]).
Proof.
  apply (valid_record_kept all_columns [] [row_no_day; row_feb_30]
           row_complete 1977 3 27 "March"); reflexivity.
Defined.

(** X6: [month_map] is one-to-one between its twelve names and the numbers
    1 to 12: every number from 1 to 12, and no other, is the number of a
    name, and two names never share a number. *)
Theorem month_map_one_to_one :
  (forall m, 1 <= m <= 12 <-> exists name, month_map !! name = Some m) /\
  (forall name1 name2 m,
     month_map !! name1 = Some m -> month_map !! name2 = Some m ->
     name1 = name2) /\
  size month_map = 12%nat.
Proof.
  split; [|split].
  - intros m. split.
    + intros Hm.
      assert (Hc : m = 1 \/ m = 2 \/ m = 3 \/ m = 4 \/ m = 5 \/ m = 6 \/
                   m = 7 \/ m = 8 \/ m = 9 \/ m = 10 \/ m = 11 \/ m = 12) by lia.
      destruct Hc as [->|[->|[->|[->|[->|[->|[->|[->|[->|[->|[->| ->]]]]]]]]]]].
      * now exists "January".
      * now exists "February".
      * now exists "March".
      * now exists "April".
      * now exists "May".
      * now exists "June".
      * now exists "July".
      * now exists "August".
      * now exists "September".
      * now exists "October".
      * now exists "November".
      * now exists "December".
    + intros [name H]. now apply month_map_range in H.
  - intros name1 name2 m H1 H2. unfold month_map in H1, H2.
    apply elem_of_list_to_map_2 in H1, H2.
    repeat (apply elem_of_cons in H1 as [H1|H1];
            [injection H1 as -> ->;
             repeat (apply elem_of_cons in H2 as [H2|H2];
                     [first [discriminate H2|now injection H2 as ->]|]);
             now apply elem_of_nil in H2|]).
    now apply elem_of_nil in H1.
  - reflexivity.
Qed.

(** * Further properties of the filter and of the metric cards *)

Lemma DataFrame_eq (a b : DataFrame) :
  columns a = columns b -> rows a = rows b -> a = b.
Proof. destruct a, b. cbn. congruence. Qed.

Lemma filtered_columns (df : DataFrame) (sel : Selection) :
  columns (filtered_df df sel) = columns df.
Proof. unfold filtered_df. now repeat destruct (negb _). Qed.

Lemma filter_none {A} (P : A -> Prop) `{!forall x, Decision (P x)} (l : list A) :
  (forall x, x ∈ l -> ~ P x) -> filter P l = [].
Proof.
  induction l as [|x l IH]; [reflexivity|]. intros Hl.
  rewrite filter_cons, decide_False by (apply Hl; left).
  apply IH. intros y Hy. apply Hl. now right.
Qed.

Lemma filter_all {A} (P : A -> Prop) `{!forall x, Decision (P x)} (l : list A) :
  (forall x, x ∈ l -> P x) -> filter P l = l.
Proof.
  induction l as [|x l IH]; [reflexivity|]. intros Hl.
  rewrite filter_cons, decide_True by (apply Hl; left).
  f_equal. apply IH. intros y Hy. apply Hl. now right.
Qed.

(** X7: filtering composes: filtering the filtered table again with the
    same selection changes nothing, and filtering by two selections one
    after the other gives the same table in either order, namely the
    records that satisfy both. *)
Theorem filtered_df_composes (df : DataFrame) (sel1 sel2 : Selection) :
  filtered_df (filtered_df df sel1) sel1 = filtered_df df sel1 /\
  filtered_df (filtered_df df sel1) sel2 = filtered_df (filtered_df df sel2) sel1 /\
  rows (filtered_df (filtered_df df sel1) sel2)
  = filter (fun r => matches sel1 r /\ matches sel2 r) (rows df).
Proof.
  split; [|split].
  - apply DataFrame_eq; [now rewrite !filtered_columns|].
    rewrite !filtered_rows, list_filter_filter.
    apply list_filter_iff. tauto.
  - apply DataFrame_eq; [now rewrite !filtered_columns|].
    rewrite !filtered_rows, !list_filter_filter.
    apply list_filter_iff. tauto.
  - rewrite !filtered_rows, list_filter_filter.
    apply list_filter_iff. tauto.
Qed.

(** X8: widening the year range, the select boxes being left as they are,
    only adds records: the narrower table is obtained from the wider one by
    leaving records out, and its "Total Crashes" is not greater. *)
Theorem wider_range_more_records (df : DataFrame) (lo hi lo' hi' : Z)
    (country airline : string) :
  lo' <= lo -> hi <= hi' ->
  rows (filtered_df df (mkSelection (lo, hi) country airline))
    `sublist_of` rows (filtered_df df (mkSelection (lo', hi') country airline)) /\
  (total_crashes (render df (mkSelection (lo, hi) country airline))
   <= total_crashes (render df (mkSelection (lo', hi') country airline)))%nat.
Proof.
  intros Hlo Hhi.
  assert (Hs : rows (filtered_df df (mkSelection (lo, hi) country airline))
    `sublist_of` rows (filtered_df df (mkSelection (lo', hi') country airline))).
  { rewrite !filtered_rows.
    rewrite (list_filter_iff _
               (fun r => matches (mkSelection (lo, hi) country airline) r /\
                         matches (mkSelection (lo', hi') country airline) r)).
    - rewrite <- list_filter_filter. apply sublist_filter.
    - intros r. unfold matches, year_in_range. cbn.
      destruct (Year r); intuition lia. }
  split; [exact Hs|]. unfold render. cbn [total_crashes].
  now apply sublist_length.
Qed.

Lemma wider_range_more_records_witness :
  (total_crashes (render two_years (mkSelection (1940, 1960)%Z "All" "All"))
   <= total_crashes (render two_years (mkSelection (1940, 2024)%Z "All" "All")))%nat.
Proof.
  apply (wider_range_more_records two_years 1940 1960 1940 2024 "All" "All"); lia.
Defined.

Lemma has_columns_spec (cols : list string) (df : DataFrame) :
  forallb (fun col => has_column col df) cols = true
  <-> forall col, col ∈ cols -> col ∈ columns df.
Proof.
  rewrite forallb_forall. split.
  - intros H col Hc. apply has_column_spec, H. now apply list_elem_of_In.
  - intros H col Hc. apply has_column_spec, H. now apply list_elem_of_In.
Qed.

Lemma has_column_filtered (col : string) (df : DataFrame) (sel : Selection) :
  has_column col (filtered_df df sel) = has_column col df.
Proof. unfold has_column. now rewrite filtered_columns. Qed.

Lemma preview_returns (df : DataFrame) (sel : Selection) :
  (forall col, col ∈ preview_columns -> col ∈ columns df) ->
  preview (render df sel)
  = Returned ((fun r => (Date r, Country_Region r, Operator r,
                         Aircraft_Manufacturer r, Fatalities_air r))
                <$> rows (filtered_df df sel)).
Proof.
  intros H. unfold render. cbn [preview].
  assert (E : forallb (fun col => has_column col (filtered_df df sel))
                preview_columns = true).
  { apply has_columns_spec. intros col Hc.
    rewrite filtered_columns. now apply H. }
  now rewrite E.
Qed.

Lemma preview_raises (df : DataFrame) (sel : Selection) (col : string) :
  col ∈ preview_columns -> col ∉ columns df ->
  preview (render df sel) = Raised "KeyError: not in index".
Proof.
  intros Hc Hn. unfold render. cbn [preview].
  destruct (forallb _ preview_columns) eqn:E; [|reflexivity].
  exfalso. apply Hn. rewrite <- (filtered_columns df sel).
  now apply (proj1 (has_columns_spec preview_columns (filtered_df df sel)) E).
Qed.



Lemma nunique_constant (c : string) (s : list (option string)) :
  Forall (fun v => v = Some c) s ->
  nunique s = match s with [] => 0%nat | _ => 1%nat end.
Proof.
  unfold nunique. induction 1 as [|v s Hv Hs IH]; [reflexivity|].
  subst v. cbn [omap list_omap id remove_dups].
  destruct s as [|v s]; [reflexivity|].
  destruct (decide_rel elem_of c (omap id (v :: s))) as [_|Hn]; [exact IH|].
  exfalso. apply Hn.
  inversion Hs as [|? ? Hv' _]; subst. cbn. left.
Qed.

(** X10: once a country is chosen in the country box, "Countries Affected"
    shows 1 when at least one record matches and 0 when none does; the same
    holds for "Airlines Involved" once an airline is chosen. *)
Theorem chosen_value_counts_once (df : DataFrame) (sel : Selection) :
  (selected_country sel <> "All" ->
   countries_affected (render df sel)
   = match total_crashes (render df sel) with 0%nat => 0%nat | _ => 1%nat end) /\
  (selected_airline sel <> "All" ->
   airlines_involved (render df sel)
   = match total_crashes (render df sel) with 0%nat => 0%nat | _ => 1%nat end).
Proof.
  unfold render. cbn [countries_affected airlines_involved total_crashes].
  rewrite filtered_rows. split; intros Hne.
  - rewrite (nunique_constant (selected_country sel)).
    + now destruct (filter _ _).
    + apply Forall_fmap, Forall_forall. intros r Hr.
      apply list_elem_of_filter in Hr as [(_ & Hc & _) _]. cbn. auto.
  - rewrite (nunique_constant (selected_airline sel)).
    + now destruct (filter _ _).
    + apply Forall_fmap, Forall_forall. intros r Hr.
      apply list_elem_of_filter in Hr as [(_ & _ & Ha) _]. cbn. auto.
Qed.

Lemma nunique_le_length (s : list (option string)) :
  (nunique s <= length s)%nat.
Proof.
  unfold nunique. transitivity (length (omap id s)).
  - apply submseteq_length, NoDup_submseteq; [apply NoDup_remove_dups|].
    intros x. now rewrite elem_of_remove_dups.
  - induction s as [|[k|] s IH]; cbn; lia.
Qed.


(** X12: air fatality counts being non-negative and adding up, over the
    Dataset, to less than 2^53, "Total Fatalities" is non-negative and
    never exceeds that total over the whole Dataset. *)
Theorem total_fatalities_bounded (df : DataFrame) (sel : Selection) :
  (forall r a, r ∈ rows df -> Fatalities_air r = Some a -> 0 <= a) ->
  exact_sum (Fatalities_air <$> rows df) < 9007199254740992 ->
  0 <= total_fatalities (render df sel)
    <= exact_sum (Fatalities_air <$> rows df).
Proof.
  intros H Hb.
  assert (Hn : forall l : list Row,
    (forall r a, r ∈ l -> Fatalities_air r = Some a -> 0 <= a) ->
    sum_abs (Fatalities_air <$> l) = exact_sum (Fatalities_air <$> l) /\
    0 <= exact_sum (Fatalities_air <$> l)).
  { induction l as [|r l IH]; intros Hl; [cbn; lia|].
    destruct IH as [IH1 IH2]; [intros x a Hx; apply Hl; now right|].
    rewrite fmap_cons. unfold sum_abs, exact_sum in *. cbn [foldr].
    assert (Hr0 : 0 <= from_option id 0 (Fatalities_air r)).
    { destruct (Fatalities_air r) as [a|] eqn:Ea; cbn; [|lia].
      apply (Hl r a); [left|exact Ea]. }
    lia. }
  destruct (Hn (rows df) H) as [Ea _].
  unfold render. cbn [total_fatalities]. rewrite filtered_rows.
  pose proof (sum_abs_filter (matches sel) (rows df)) as Hf.
  rewrite series_sum_exact by lia.
  destruct (Hn (filter (matches sel) (rows df))) as [Ef Hf0].
  { intros r a Hr. apply list_elem_of_filter in Hr as [_ Hr]. now apply H. }
  lia.
Qed.

Lemma total_fatalities_bounded_witness :
  0 <= total_fatalities (render two_years (mkSelection (1940, 1960) "All" "All"))
    <= exact_sum (Fatalities_air <$> rows two_years).
Proof.
  apply (total_fatalities_bounded two_years (mkSelection (1940, 1960) "All" "All")).
  - intros r a Hr Ha. unfold two_years in Hr. cbn in Hr.
    repeat (apply elem_of_cons in Hr as [->|Hr];
            [cbn in Ha; injection Ha as <-; lia|]).
    now apply elem_of_nil in Hr.
  - vm_compute. reflexivity.
Defined.

(** * Properties of the sidebar widgets *)

Lemma series_max_cons (v : option Z) (s : list (option Z)) :
  series_max (v :: s)
  = match v, series_max s with
    | Some z, Some m => Some (Z.max z m)
    | Some z, None => Some z
    | None, acc => acc
    end.
Proof. reflexivity. Qed.

Lemma series_max_None (s : list (option Z)) :
  series_max s = None <-> forall v, v ∈ s -> v = None.
Proof.
  induction s as [|v s IH]; [cbn|rewrite series_max_cons].
  - split; [|reflexivity]. intros _ v Hv. now apply elem_of_nil in Hv.
  - destruct v as [z|].
    + split.
      * destruct (series_max s); intros H; discriminate H.
      * intros H. specialize (H (Some z) ltac:(left)). discriminate.
    + rewrite IH. split.
      * intros H v Hv. apply elem_of_cons in Hv as [->|Hv]; auto.
      * intros H v Hv. apply H. now right.
Qed.

Lemma series_max_Some (s : list (option Z)) (m : Z) :
  series_max s = Some m ->
  Some m ∈ s /\ forall z, Some z ∈ s -> z <= m.
Proof.
  revert m. induction s as [|v s IH]; [discriminate|].
  intros m H. rewrite series_max_cons in H. destruct v as [z|].
  - destruct (series_max s) as [m'|] eqn:E.
    + injection H as <-. destruct (IH m' eq_refl) as [Hin Hle]. split.
      * destruct (Z.max_spec z m') as [[_ ->]|[_ ->]]; [now right|left].
      * intros y Hy. apply elem_of_cons in Hy as [[= ->]|Hy]; [lia|].
        apply Hle in Hy. lia.
    + injection H as <-. split; [left|].
      intros y Hy. apply elem_of_cons in Hy as [[= ->]|Hy]; [lia|].
      apply (proj1 (series_max_None s) E) in Hy. discriminate.
  - destruct (IH m H) as [Hin Hle]. split; [now right|].
    intros y Hy. apply elem_of_cons in Hy as [?|Hy]; [discriminate|auto].
Qed.

(** X13: on a table that has a [Year] column, the initial value of the
    year slider cannot be computed exactly when no record has a year, as on
    an empty table: [int] of NaN raises [ValueError].  As soon as one record
    has a year it is computed. *)
Theorem default_year_range_raises_iff (df : DataFrame) :
  has_column "Year" df = true ->
  (default_year_range df
   = Raised "ValueError: cannot convert float NaN to integer"
   <-> forall r, r ∈ rows df -> Year r = None) /\
  ((exists range, default_year_range df = Returned range)
   <-> exists r y, r ∈ rows df /\ Year r = Some y) /\
  (rows df = [] ->
   default_year_range df
   = Raised "ValueError: cannot convert float NaN to integer").
Proof.
  intros Hcol.
  assert (Hnone : series_max (Year <$> rows df) = None
                  <-> forall r, r ∈ rows df -> Year r = None).
  { rewrite series_max_None. split.
    - intros H r Hr. apply H. now apply list_elem_of_fmap_2.
    - intros H v Hv. apply list_elem_of_fmap in Hv as (r & -> & Hr). auto. }
  unfold default_year_range, int_of. rewrite Hcol. split; [|split].
  - rewrite <- Hnone. destruct (series_max _); split; congruence.
  - destruct (series_max (Year <$> rows df)) as [m|] eqn:E.
    + split; [|eauto]. intros _.
      apply series_max_Some in E as [Hin _].
      apply list_elem_of_fmap in Hin as (r & Hy & Hr). eauto.
    + split; [intros [range H]; discriminate|].
      intros (r & y & Hr & Hy). apply Hnone in Hr; [congruence|reflexivity].
  - intros E. now rewrite E.
Qed.

Lemma default_year_range_raises_iff_witness :
  default_year_range no_records
  = Raised "ValueError: cannot convert float NaN to integer".
Proof.
  destruct (default_year_range_raises_iff no_records) as (_ & _ & H).
  - reflexivity.
  - now apply H.
Defined.

(** X14: when the initial value of the year slider is computed, its lower
    bound is 1940 and its upper bound is the latest year of the table: the
    year of some record, and no record is later.  With that range and both
    select boxes on "All", the filtered table holds exactly the records of
    1940 and later. *)
Theorem default_year_range_covers (df : DataFrame) (lo hi : Z) :
  default_year_range df = Returned (lo, hi) ->
  lo = 1940 /\
  (exists r, r ∈ rows df /\ Year r = Some hi) /\
  (forall r y, r ∈ rows df -> Year r = Some y -> y <= hi) /\
  rows (filtered_df df (mkSelection (lo, hi) "All" "All"))
  = filter (year_from 1940) (rows df).
Proof.
  unfold default_year_range, int_of.
  destruct (has_column "Year" df); [|discriminate].
  destruct (series_max (Year <$> rows df)) as [m|] eqn:E; [|discriminate].
  intros [= <- <-]. apply series_max_Some in E as [Hin Hle].
  assert (Hmax : forall r y, r ∈ rows df -> Year r = Some y -> y <= m).
  { intros r y Hr Hy. apply Hle. rewrite <- Hy. now apply list_elem_of_fmap_2. }
  split; [reflexivity|]. split; [|split; [exact Hmax|]].
  - apply list_elem_of_fmap in Hin as (r & Hy & Hr). eauto.
  - rewrite filtered_rows.
    rewrite <- (filter_all (matches (mkSelection (1940, m) "All" "All"))
                  (filter (year_from 1940) (rows df))).
    + rewrite list_filter_filter. apply list_filter_iff.
      intros r. unfold matches, year_in_range, year_from. cbn.
      destruct (Year r); intuition lia.
    + intros r Hr. apply list_elem_of_filter in Hr as [Hy Hr].
      unfold matches, year_in_range, year_from in *. cbn.
      destruct (Year r) as [y|] eqn:Ey; [|contradiction].
      specialize (Hmax r y Hr Ey). intuition lia.
Qed.

Lemma default_year_range_covers_witness :
  rows (filtered_df two_years (mkSelection (1940, 1990) "All" "All"))
  = filter (year_from 1940) (rows two_years).
Proof.
  destruct (default_year_range_covers two_years 1940 1990) as (_ & _ & _ & H).
  - reflexivity.
  - exact H.
Defined.

Lemma loaded_table_rows (df : DataFrame) :
  rows (loaded_table df) = loaded_rows df.
Proof.
  unfold loaded_table, loaded_rows, load_data.
  now destruct (has_required df).
Qed.

(** X15: when the raw table has its three columns but none of its lines has
    one of the twelve month names (months given as numbers, for instance),
    the loaded table is empty and the script cannot go past the year
    slider: computing its initial value raises. *)
Theorem nothing_loaded_slider_raises (df : DataFrame) :
  has_required df = true ->
  (forall r name, r ∈ rows df -> Month r = Str name ->
                  month_map !! name = None) ->
  rows (loaded_table df) = [] /\
  default_year_range (loaded_table df)
  = Raised "ValueError: cannot convert float NaN to integer".
Proof.
  intros H Hnone.
  assert (E : rows (loaded_table df) = []).
  { rewrite loaded_table_rows, loaded_rows_normalize by exact H.
    induction (rows df) as [|r l IH]; [reflexivity|].
    cbn [omap list_omap]. unfold normalize at 1.
    rewrite raw_date_not_a_name
      by (intros name; apply Hnone; left). cbn.
    apply IH. intros x name Hx. apply Hnone. now right. }
  split; [exact E|].
  assert (Hcol : has_column "Year" (loaded_table df) = true).
  { apply has_column_spec, loaded_table_keeps_columns; [exact H|].
    apply (proj1 (has_required_true df) H). unfold required_columns. set_solver. }
  unfold default_year_range. now rewrite Hcol, E.
Qed.

Lemma nothing_loaded_slider_raises_witness :
  default_year_range (loaded_table table_numeric_month)
  = Raised "ValueError: cannot convert float NaN to integer".
Proof.
  destruct (nothing_loaded_slider_raises table_numeric_month) as [_ H].
  - reflexivity.
  - intros r name Hr Hn.
    unfold table_numeric_month in Hr. cbn in Hr.
    apply elem_of_cons in Hr as [->|Hr]; [discriminate Hn|].
    apply elem_of_cons in Hr as [->|Hr];
      [|now apply elem_of_nil in Hr].
    cbn in Hn. injection Hn as <-. reflexivity.
  - exact H.
Defined.

Lemma unique_snoc (l : list string) (x : string) :
  unique (l ++ [x])
  = if decide (x ∈ unique l) then unique l else unique l ++ [x].
Proof. unfold unique. now rewrite foldl_app. Qed.

Lemma elem_of_unique (l : list string) (x : string) :
  x ∈ unique l <-> x ∈ l.
Proof.
  induction l as [|y l IH] using rev_ind; [reflexivity|].
  rewrite unique_snoc, elem_of_app, list_elem_of_singleton.
  destruct (decide (y ∈ unique l)) as [Hy|Hy].
  - rewrite IH. split; [tauto|]. intros [?| ->]; [assumption|now apply IH].
  - rewrite elem_of_app, list_elem_of_singleton, IH. tauto.
Qed.

Lemma NoDup_unique (l : list string) : NoDup (unique l).
Proof.
  induction l as [|y l IH] using rev_ind; [constructor|].
  rewrite unique_snoc. destruct (decide (y ∈ unique l)) as [Hy|Hy]; [exact IH|].
  apply NoDup_app. split; [exact IH|]. split; [|apply NoDup_singleton].
  intros x Hx Hxy. apply list_elem_of_singleton in Hxy. congruence.
Qed.

Lemma select_options_spec (s : list (option string)) :
  exists values,
    select_options s = "All" :: values /\
    StronglySorted String.le values /\ NoDup values /\
    forall k, k ∈ values <-> Some k ∈ s.
Proof.
  exists (sorted (unique (omap id s))). unfold sorted.
  split; [reflexivity|]. split; [apply StronglySorted_merge_sort; apply _|].
  split.
  - rewrite merge_sort_Permutation. apply NoDup_unique.
  - intros k. rewrite merge_sort_Permutation, elem_of_unique, list_elem_of_omap.
    split.
    + intros ([k'|] & Hin & E); cbn in E; [|discriminate].
      now injection E as ->.
    + intros H. now exists (Some k).
Qed.

(** X16: on a table that has the two columns, each select box offers "All"
    first, then the values of its column that occur in the table, every one
    of them once, in increasing order; missing values give no option.  So
    every option after "All" is the country (or the operator) of at least
    one record, and every country (or operator) of a record is offered. *)
Theorem select_box_options (df : DataFrame) :
  has_column "Country/Region" df = true -> has_column "Operator" df = true ->
  (exists countries,
     country_options df = Returned ("All" :: countries) /\
     StronglySorted String.le countries /\ NoDup countries /\
     forall k, k ∈ countries
               <-> exists r, r ∈ rows df /\ Country_Region r = Some k) /\
  (exists airlines,
     airline_options df = Returned ("All" :: airlines) /\
     StronglySorted String.le airlines /\ NoDup airlines /\
     forall k, k ∈ airlines
               <-> exists r, r ∈ rows df /\ Operator r = Some k).
Proof.
  intros Hc Ho. unfold country_options, airline_options. rewrite Hc, Ho.
  split.
  - destruct (select_options_spec (Country_Region <$> rows df))
      as (values & E & Hs & Hn & Hk).
    exists values. repeat split; try assumption.
    + now rewrite E.
    + intros H. apply Hk, list_elem_of_fmap in H as (r & Hr & Hin). eauto.
    + intros (r & Hin & Hr). apply Hk. rewrite <- Hr.
      now apply list_elem_of_fmap_2.
  - destruct (select_options_spec (Operator <$> rows df))
      as (values & E & Hs & Hn & Hk).
    exists values. repeat split; try assumption.
    + now rewrite E.
    + intros H. apply Hk, list_elem_of_fmap in H as (r & Hr & Hin). eauto.
    + intros (r & Hin & Hr). apply Hk. rewrite <- Hr.
      now apply list_elem_of_fmap_2.
Qed.

Lemma select_box_options_witness :
  (exists countries,
     country_options two_years = Returned ("All" :: countries) /\
     StronglySorted String.le countries /\ NoDup countries /\
     forall k, k ∈ countries
               <-> exists r, r ∈ rows two_years /\ Country_Region r = Some k) /\
  (exists airlines,
     airline_options two_years = Returned ("All" :: airlines) /\
     StronglySorted String.le airlines /\ NoDup airlines /\
     forall k, k ∈ airlines
               <-> exists r, r ∈ rows two_years /\ Operator r = Some k).
Proof.
  apply (select_box_options two_years); reflexivity.
Defined.

(** * Further properties of the chart inputs *)

Lemma bump_total (k : Z) (l : list (Z * nat)) :
  sum_list (bump k l).*2 = S (sum_list l.*2).
Proof.
  induction l as [|[k' c] l IH]; [reflexivity|].
  cbn [bump]. destruct (k <? k'); [reflexivity|].
  destruct (k =? k'); [reflexivity|].
  cbn [fmap list_fmap sum_list sum_list_with snd] in *. rewrite IH. lia.
Qed.

Lemma groupby_size_total (keys : list (option Z)) :
  sum_list (groupby_size keys).*2 = length (omap id keys).
Proof.
  induction keys as [|[k|] keys IH]; [reflexivity| |exact IH].
  cbn [groupby_size foldr]. fold (groupby_size keys).
  rewrite bump_total, IH. reflexivity.
Qed.

(** X17: the yearly trend has one (year, count) pair for each year that
    occurs in the Dataset, in ascending year order, the count being the
    number of records of that year; a year without a record has no pair, and
    the counts add up to the number of records that have a year. *)
Theorem yearly_trend_counts (df : DataFrame) (sel : Selection) :
  StronglySorted Z.lt (yearly_trend (render df sel)).*1 /\
  (forall y c, (y, c) ∈ yearly_trend (render df sel)
               <-> c = count_year y (rows df) /\ (0 < c)%nat) /\
  sum_list (yearly_trend (render df sel)).*2
  = length (filter (fun r => is_Some (Year r)) (rows df)).
Proof.
  unfold render. cbn [yearly_trend].
  split; [apply groupby_size_sorted|]. split.
  - intros y c.
    rewrite entry_elem by
      (apply groupby_size_sorted || apply groupby_size_positive).
    rewrite entry_groupby_size.
    assert (E : length (filter (fun v => v = Some y) (Year <$> rows df))
                = count_year y (rows df)).
    { unfold count_year. induction (rows df) as [|r l IH]; [reflexivity|].
      rewrite fmap_cons, !filter_cons.
      destruct (decide (Year r = Some y)); cbn; now rewrite IH. }
    rewrite E. intuition congruence.
  - rewrite groupby_size_total.
    induction (rows df) as [|r l IH]; [reflexivity|].
    rewrite fmap_cons, filter_cons. cbn [omap list_omap].
    destruct (Year r) as [y|]; cbn.
    + rewrite decide_True by eauto. cbn. now rewrite IH.
    + rewrite decide_False by (intros [? ?]; discriminate). exact IH.
Qed.

(** X18: on a loaded table the counts of the yearly trend add up to the
    number of records, and so do the counts of the monthly pattern: every
    record is counted once in each chart. *)
Theorem chart_totals_loaded (df : DataFrame) (sel : Selection) :
  has_required df = true ->
  sum_list (yearly_trend (render (loaded_table df) sel)).*2
  = length (rows (loaded_table df)) /\
  sum_list (monthly (render (loaded_table df) sel)).*2
  = length (rows (loaded_table df)).
Proof.
  intros H. unfold render. cbn [yearly_trend monthly].
  rewrite !groupby_size_total, loaded_table_rows.
  assert (Hr : forall r, r ∈ loaded_rows df ->
                 is_Some (Year r) /\ is_Some (month_key (Month r))).
  { intros r Hr.
    destruct (loaded_rows_with_date df r H Hr) as (r0 & d & _ & _ & ->).
    cbn. split; eexists; reflexivity. }
  induction (loaded_rows df) as [|r l IH]; [split; reflexivity|].
  destruct (Hr r ltac:(left)) as [[y Hy] [m Hm]].
  destruct IH as [IH1 IH2]; [intros x Hx; apply Hr; now right|].
  rewrite !fmap_cons. cbn [omap list_omap]. rewrite Hy, Hm. cbn.
  now rewrite IH1, IH2.
Qed.

Lemma chart_totals_loaded_witness :
  sum_list (yearly_trend (render (loaded_table table_three) default_selection)).*2
  = length (rows (loaded_table table_three)) /\
  sum_list (monthly (render (loaded_table table_three) default_selection)).*2
  = length (rows (loaded_table table_three)).
Proof.
  apply (chart_totals_loaded table_three default_selection). reflexivity.
Defined.

Lemma value_counts_length (s : list (option string)) :
  length (value_counts s) = nunique s.
Proof.
  unfold value_counts, nunique.
  rewrite sort_desc_Permutation, <- (length_fmap fst).
  apply Permutation_length, NoDup_Permutation.
  - apply count_values_NoDup.
  - apply NoDup_remove_dups.
  - intros k. rewrite count_values_keys, elem_of_remove_dups, list_elem_of_omap.
    split.
    + intros H. now exists (Some k).
    + intros ([k'|] & Hin & E); cbn in E; [|discriminate].
      now injection E as ->.
Qed.

(** X19: the top-countries chart lists ten countries, or all of them when
    the Dataset has fewer than ten; no country is listed twice, every
    listed country is the country of some record, and when the Dataset has
    at most ten countries every one of them is listed. *)
Theorem top_countries_size (df : DataFrame) (sel : Selection) :
  length (top_countries (render df sel))
  = (10 `min` nunique (Country_Region <$> rows df))%nat /\
  NoDup (top_countries (render df sel)).*1 /\
  (forall k c, (k, c) ∈ top_countries (render df sel) ->
     exists r, r ∈ rows df /\ Country_Region r = Some k) /\
  ((nunique (Country_Region <$> rows df) <= 10)%nat ->
   forall r k, r ∈ rows df -> Country_Region r = Some k ->
               k ∈ (top_countries (render df sel)).*1).
Proof.
  unfold render. cbn [top_countries]. unfold head.
  split; [|split; [|split]].
  - now rewrite length_take, value_counts_length.
  - rewrite fmap_take. eapply sublist_NoDup; [|apply sublist_take].
    unfold value_counts. rewrite sort_desc_Permutation.
    apply count_values_NoDup.
  - intros k c H. apply subseteq_take in H.
    unfold value_counts in H. rewrite sort_desc_elem in H.
    assert (Hk : k ∈ (count_values (Country_Region <$> rows df)).*1).
    { apply list_elem_of_fmap. exists (k, c). split; [reflexivity|exact H]. }
    apply count_values_keys, list_elem_of_fmap in Hk as (r & Hr & Hin). eauto.
  - intros Hle r k Hr Hk.
    rewrite take_ge by (rewrite value_counts_length; exact Hle).
    unfold value_counts. rewrite sort_desc_Permutation.
    apply count_values_keys. rewrite <- Hk. now apply list_elem_of_fmap_2.
Qed.

(** * The preview after a failed column check *)


